(** * countries.py: a shallow embedding of the country ETL script

    The script fetches country metadata (or loads a cached copy), flattens
    every record with [transform_country] and bulk-loads the rows into
    PostgreSQL.  This file embeds the Python code in Rocq:

    - JSON documents as the Python objects [json.load] builds ([value]);
    - Python exceptions as an error monad ([result]);
    - the script's input/output (HTTP, files, database, stdout) as a monad
      that logs every external call in a trace and asks a [world] for the
      outcome of the call;

    and proves the properties of the transform, the fetch and the
    orchestrator. *)

From Stdlib Require Import String Ascii List ZArith Bool Lia.
From Stdlib Require Import Floats.SpecFloat.
Import ListNotations.

Local Open Scope string_scope.
Local Open Scope Z_scope.

(** ** Python objects *)

(** The objects [json.load] and [requests.Response.json] can build.  A dict
    keeps its insertion order (the joins of [transform_country] depend on
    it), so it is an association list; Python's dicts have no duplicate
    key, see [dict_wf].  A float is an IEEE 754 binary64 number.  A [str] is
    a sequence of characters; none of the operations of the script looks
    at the code of a character. *)
#[warnings="-register-all"]
Inductive value : Type :=
| VNone
| VBool (b : bool)
| VInt (z : Z)
| VFloat (f : spec_float)
| VStr (s : string)
| VList (l : list value)
| VDict (d : list (string * value)).

Definition dict : Type := list (string * value).

(** ** Exceptions *)

Inductive exn : Type :=
| AttributeError
| TypeError
| KeyError
| OverflowError
| UnboundLocalError (var : string)
| ValueError (msg : string)
| ConnectionError (msg : string)
| ExternalError (what : string).

Inductive result (A : Type) : Type :=
| Ok (a : A)
| Raise (e : exn).

Arguments Ok {A} a.
Arguments Raise {A} e.

Module ResultMonad.

Definition bind {A B : Type} (m : result A) (f : A -> result B) : result B :=
  match m with
  | Ok a => f a
  | Raise e => Raise e
  end.

Fixpoint mapM {A B : Type} (f : A -> result B) (l : list A) : result (list B) :=
  match l with
  | [] => Ok []
  | x :: xs =>
      bind (f x) (fun y => bind (mapM f xs) (fun ys => Ok (y :: ys)))
  end.

End ResultMonad.

Declare Scope result_scope.
Delimit Scope result_scope with result.
Notation "x <- m ;; k" := (ResultMonad.bind m (fun x => k))
  (at level 61, m at next level, right associativity) : result_scope.
Local Open Scope result_scope.

(** ** Dictionaries *)

Fixpoint dict_lookup (k : string) (d : dict) : option value :=
  match d with
  | [] => None
  | (k', v) :: rest => if String.eqb k k' then Some v else dict_lookup k rest
  end.

(** [d[k] = v]: an existing key keeps its place, a new key goes last. *)
Fixpoint dict_set (k : string) (v : value) (d : dict) : dict :=
  match d with
  | [] => [(k, v)]
  | (k', v') :: rest =>
      if String.eqb k k' then (k', v) :: rest else (k', v') :: dict_set k v rest
  end.

(** [{**a, **b}]: the items of [a], then those of [b], set one by one. *)
Definition dict_merge (a b : dict) : dict :=
  fold_left (fun acc kv => dict_set (fst kv) (snd kv) acc) b a.

Definition dict_keys (d : dict) : list string := map fst d.
Definition dict_values (d : dict) : list value := map snd d.

(** The invariant of a Python dict: no key occurs twice. *)
Definition dict_wf (d : dict) : Prop := NoDup (dict_keys d).

(** ** Operations of the Python objects *)

(** [bool(v)] *)
Definition truthy (v : value) : bool :=
  match v with
  | VNone => false
  | VBool b => b
  | VInt z => negb (z =? 0)
  | VFloat f => match f with S754_zero _ => false | _ => true end
  | VStr s => negb (String.eqb s EmptyString)
  | VList l => match l with [] => false | _ => true end
  | VDict d => match d with [] => false | _ => true end
  end.

(** [obj.get(key, default)]: only a dict has the method. *)
Definition py_get (obj : value) (key : string) (default : value) : result value :=
  match obj with
  | VDict d =>
      match dict_lookup key d with
      | Some v => Ok v
      | None => Ok default
      end
  | _ => Raise AttributeError
  end.

(** [obj.values()] and [obj.keys()] *)
Definition py_values (obj : value) : result (list value) :=
  match obj with
  | VDict d => Ok (dict_values d)
  | _ => Raise AttributeError
  end.

Definition py_keys (obj : value) : result (list value) :=
  match obj with
  | VDict d => Ok (map VStr (dict_keys d))
  | _ => Raise AttributeError
  end.

Definition chars (s : string) : list value :=
  map (fun c => VStr (String c EmptyString)) (list_ascii_of_string s).

(** [iter(obj)]: a list gives its elements, a str its characters, a dict
    its keys; nothing else is iterable. *)
Definition py_iter (obj : value) : result (list value) :=
  match obj with
  | VList l => Ok l
  | VStr s => Ok (chars s)
  | VDict d => Ok (map VStr (dict_keys d))
  | _ => Raise TypeError
  end.

Fixpoint join (sep : string) (l : list string) : string :=
  match l with
  | [] => EmptyString
  | [s] => s
  | s :: rest => s ++ sep ++ join sep rest
  end.

Definition as_str (v : value) : result string :=
  match v with
  | VStr s => Ok s
  | _ => Raise TypeError
  end.

(** [sep.join(items)] on the items already drawn from the iterable: every
    item has to be a str. *)
Definition py_join_items (sep : string) (items : list value) : result value :=
  ss <- ResultMonad.mapM as_str items ;;
  Ok (VStr (join sep ss)).

(** [sep.join(obj)] *)
Definition py_join (sep : string) (obj : value) : result value :=
  items <- py_iter obj ;;
  py_join_items sep items.

(** binary64 *)
Definition float_add : spec_float -> spec_float -> spec_float := SFadd 53 1024.

(** [float(z)] of an int: rounds to nearest even, [OverflowError] beyond the
    range of a double. *)
Definition float_of_int (z : Z) : result spec_float :=
  match binary_normalize 53 1024 z 0 false with
  | S754_infinity _ => Raise OverflowError
  | f => Ok f
  end.

Definition int_like (v : value) : option Z :=
  match v with
  | VBool b => Some (if b then 1 else 0)
  | VInt z => Some z
  | _ => None
  end.

(** [a + b] *)
Definition py_add (a b : value) : result value :=
  match a, b with
  | VStr s, VStr t => Ok (VStr (s ++ t))
  | VList l, VList m => Ok (VList (l ++ m))
  | VFloat f, VFloat g => Ok (VFloat (float_add f g))
  | VFloat f, _ =>
      match int_like b with
      | Some z => g <- float_of_int z ;; Ok (VFloat (float_add f g))
      | None => Raise TypeError
      end
  | _, VFloat g =>
      match int_like a with
      | Some z => f <- float_of_int z ;; Ok (VFloat (float_add f g))
      | None => Raise TypeError
      end
  | _, _ =>
      match int_like a, int_like b with
      | Some x, Some y => Ok (VInt (x + y))
      | _, _ => Raise TypeError
      end
  end.

(** ** transform_country *)

(** A Python tuple. *)
Definition row : Type := list value.

(** [', '.join([entry.get(key, '') for entry in entries.values()])]: the
    comprehension over [nativeName] and the two over [currencies]. *)
Definition inner_values (entries : value) (key : string) : result (list value) :=
  vs <- py_values entries ;;
  ResultMonad.mapM (fun entry => py_get entry key (VStr EmptyString)) vs.

Definition joined_inner (entries : value) (key : string) : result value :=
  items <- inner_values entries key ;;
  py_join_items ", " items.

(** [', '.join([native.get('common', '') for native in name.get('nativeName', {}).values()])] *)
Definition native_names (name : value) : result value :=
  native <- py_get name "nativeName" (VDict []) ;;
  joined_inner native "common".

(** [', '.join(currencies.keys())] *)
Definition currency_codes (currencies : value) : result value :=
  keys <- py_keys currencies ;;
  py_join_items ", " keys.

(** [', '.join(country.get('languages', {}).values())] *)
Definition languages_joined (country : value) : result value :=
  languages <- py_get country "languages" (VDict []) ;;
  items <- py_values languages ;;
  py_join_items ", " items.

(** [', '.join(country.get('continents', []))] *)
Definition continents_joined (country : value) : result value :=
  continents <- py_get country "continents" (VList []) ;;
  py_join ", " continents.

(** [', '.join([idd.get('root', '') + suffix for suffix in idd.get('suffixes', [])])
    if idd.get('suffixes') else ''] *)
Definition calling_codes (idd : value) : result value :=
  cond <- py_get idd "suffixes" VNone ;;
  if truthy cond then
    suffixes <- py_get idd "suffixes" (VList []) ;;
    items <- py_iter suffixes ;;
    codes <- ResultMonad.mapM
               (fun suffix => root <- py_get idd "root" (VStr EmptyString) ;;
                              py_add root suffix) items ;;
    py_join_items ", " codes
  else Ok (VStr EmptyString).

(** [', '.join(country.get('capital', [])) if country.get('capital') else "Unknown"] *)
Definition capital_cities (country : value) : result value :=
  cond <- py_get country "capital" VNone ;;
  if truthy cond then
    capital <- py_get country "capital" (VList []) ;;
    py_join ", " capital
  else Ok (VStr "Unknown").

Definition transform_country (country : value) : result row :=
  name <- py_get country "name" (VDict []) ;;
  currencies <- py_get country "currencies" (VDict []) ;;
  idd <- py_get country "idd" (VDict []) ;;
  f1 <- py_get name "common" VNone ;;
  f2 <- py_get name "official" VNone ;;
  f3 <- native_names name ;;
  f4 <- currency_codes currencies ;;
  f5 <- joined_inner currencies "name" ;;
  f6 <- joined_inner currencies "symbol" ;;
  f7 <- calling_codes idd ;;
  f8 <- capital_cities country ;;
  f9 <- py_get country "region" VNone ;;
  f10 <- py_get country "subregion" VNone ;;
  f11 <- languages_joined country ;;
  f12 <- py_get country "area" (VInt 0) ;;
  f13 <- py_get country "population" (VInt 0) ;;
  f14 <- continents_joined country ;;
  f15 <- py_get country "independent" VNone ;;
  f16 <- py_get country "unMember" VNone ;;
  f17 <- py_get country "startOfWeek" VNone ;;
  Ok [f1; f2; f3; f4; f5; f6; f7; f8; f9; f10; f11; f12; f13; f14; f15; f16; f17].

(** The fields of a row, by position. *)
Definition field (n : nat) (r : row) : option value := nth_error r (n - 1).

Definition testland_record : dict :=
  [("name", VDict [("common", VStr "Testland")]);
   ("currencies", VDict [("XYZ", VDict [("name", VStr "Testcoin");
                                        ("symbol", VStr "T")])])].

Definition testland : value := VDict testland_record.

(** ** Input and output *)

(** What the script prints: the pieces of one printed line. *)
Inductive printable : Type :=
| PStr (s : string)
| PNat (n : nat)
| PExn (e : exn).

(** The database connection object of psycopg2, and its cursor. *)
Inductive connection : Type := Connection.
Inductive cursor : Type := Cursor.

(** The calls the script makes to the outside. *)
Inductive event : Type :=
| EPrint (line : list printable)
| EHttpGetJson (url : string)
| EPathExists (path : string)
| EReadJson (path : string)
| EWriteJson (path : string) (data : value)
| EReadText (path : string)
| ELoadDotenv (path : string)
| EConnect
| EOpenCursor
| EExecute (sql : string)
| EExecuteMany (sql : string) (rows : list row)
| ECommit
| ECloseCursor
| ECloseConnection.

(** The outcome of every external call of one run. *)
Record world : Type := {
  http_get_json : string -> result value;
  path_exists : string -> bool;
  read_json : string -> result value;
  write_json : string -> value -> result unit;
  read_text : string -> result string;
  db_connect : result connection;
  db_cursor : result cursor;
  db_execute : string -> result unit;
  db_executemany : string -> list row -> result unit;
  db_commit : result unit;
  db_close_cursor : result unit;
  db_close_connection : result unit
}.

(** A run of a piece of the script from a frame of local variables: the
    external calls made, the frame at the end (the assignments made before
    an exception stay), and the value returned or the exception raised. *)
Record outcome (S A : Type) : Type := {
  trace : list event;
  frame : S;
  res : result A
}.

Arguments trace {S A} o.
Arguments frame {S A} o.
Arguments res {S A} o.

Definition prog (S A : Type) : Type := S -> outcome S A.

Module Prog.

Definition ret {S A : Type} (a : A) : prog S A :=
  fun s => {| trace := []; frame := s; res := Ok a |}.

Definition raise {S A : Type} (e : exn) : prog S A :=
  fun s => {| trace := []; frame := s; res := Raise e |}.

Definition bind {S A B : Type} (m : prog S A) (f : A -> prog S B) : prog S B :=
  fun s =>
    match m s with
    | {| trace := t; frame := s'; res := Ok a |} =>
        match f a s' with
        | {| trace := t'; frame := s''; res := r |} =>
            {| trace := t ++ t'; frame := s''; res := r |}
        end
    | {| trace := t; frame := s'; res := Raise e |} =>
        {| trace := t; frame := s'; res := Raise e |}
    end.

(** A pure computation that may raise. *)
Definition lift {S A : Type} (r : result A) : prog S A :=
  fun s => {| trace := []; frame := s; res := r |}.

(** An external call: logged, then it returns or raises as the world says. *)
Definition extern {S A : Type} (ev : event) (r : result A) : prog S A :=
  fun s => {| trace := [ev]; frame := s; res := r |}.

(** [try: m except Exception as e: h e] *)
Definition try_except {S A : Type} (m : prog S A) (h : exn -> prog S A) : prog S A :=
  fun s =>
    match m s with
    | {| trace := t; frame := s'; res := Ok a |} =>
        {| trace := t; frame := s'; res := Ok a |}
    | {| trace := t; frame := s'; res := Raise e |} =>
        match h e s' with
        | {| trace := t'; frame := s''; res := r |} =>
            {| trace := t ++ t'; frame := s''; res := r |}
        end
    end.

Definition get_frame {S : Type} : prog S S :=
  fun s => {| trace := []; frame := s; res := Ok s |}.

Definition set_frame {S : Type} (s' : S) : prog S unit :=
  fun _ => {| trace := []; frame := s'; res := Ok tt |}.

(** A function call: the callee runs from its own frame. *)
Definition call {S S' A : Type} (init : S') (m : prog S' A) : prog S A :=
  fun s =>
    match m init with
    | {| trace := t; frame := _; res := r |} => {| trace := t; frame := s; res := r |}
    end.

End Prog.

Declare Scope prog_scope.
Delimit Scope prog_scope with prog.
Notation "x <- m ;; k" := (Prog.bind m (fun x => k))
  (at level 61, m at next level, right associativity) : prog_scope.
Notation "m ;; k" := (Prog.bind m (fun _ => k))
  (at level 61, right associativity) : prog_scope.

Definition print {S : Type} (line : list printable) : prog S unit :=
  Prog.extern (EPrint line) (Ok tt).

(** [zip(a, b)] drawn to its end. *)
Fixpoint zip {A B : Type} (a : list A) (b : list B) : list (A * B) :=
  match a, b with
  | x :: a', y :: b' => (x, y) :: zip a' b'
  | _, _ => []
  end.

(** [{**a, **b}]: both have to be mappings. *)
Definition py_dict_unpack2 (a b : value) : result value :=
  match a, b with
  | VDict da, VDict db => Ok (VDict (dict_merge da db))
  | _, _ => Raise TypeError
  end.

(** The loop of [fetch_country_data]:
    [for country1, country2 in zip(response1, response2):
       merged_data.append({**country1, **country2})]. *)
Definition merge_responses (response1 response2 : value) : result (list value) :=
  (it1 <- py_iter response1 ;;
   it2 <- py_iter response2 ;;
   ResultMonad.mapM (fun p => py_dict_unpack2 (fst p) (snd p)) (zip it1 it2))%result.

(** [urls[key]] on the dictionary of endpoints of the config module. *)
Definition py_subscript (urls : list (string * string)) (key : string) : result string :=
  match find (fun kv => String.eqb key (fst kv)) urls with
  | Some kv => Ok (snd kv)
  | None => Raise KeyError
  end.

Local Close Scope result_scope.
Local Open Scope prog_scope.

(** ** The script *)

(** The local variables of [fetch_country_data] that its [try] statement
    binds; [None] is a name not bound yet. *)
Record fetch_frame : Type := {
  response1 : option value;
  response2 : option value
}.

Definition fetch_frame0 : fetch_frame :=
  {| response1 := None; response2 := None |}.

(** Reading a local variable: [UnboundLocalError] when nothing was assigned. *)
Definition load_local {S : Type} (var : string) (get : S -> option value)
  : prog S value :=
  s <- Prog.get_frame ;;
  match get s with
  | Some v => Prog.ret v
  | None => Prog.raise (UnboundLocalError var)
  end.

Definition cache_path : string := "countries_raw.json".
Definition ddl_path : string := "./ddl_commands/create_countries.sql".
Definition dml_path : string := "./dml_commands/insert_countries.sql".
Definition creds_path : string := "my_creds.env".

Definition no_data_msg : string :=
  "No country data returned from API. Cannot proceed.".
Definition no_connection_msg : string :=
  "Failed to connect to PostgreSQL. Check your credentials or server status.".

(** [v is None] *)
Definition is_none (v : value) : bool :=
  match v with VNone => true | _ => false end.

Definition USE_CACHED : bool := true.

Section Script.

Variable w : world.

(** [requests.get(urls[key]).json()] *)
Definition request_json {S : Type} (urls : list (string * string)) (key : string)
  : prog S value :=
  url <- Prog.lift (py_subscript urls key) ;;
  Prog.extern (EHttpGetJson url) (http_get_json w url).

Definition fetch_country_data_body (urls : list (string * string))
  : prog fetch_frame value :=
  Prog.try_except
    (r1 <- request_json urls "url1" ;;
     (s <- Prog.get_frame ;;
      Prog.set_frame {| response1 := Some r1; response2 := response2 s |}) ;;
     r2 <- request_json urls "url2" ;;
     s <- Prog.get_frame ;;
     Prog.set_frame {| response1 := response1 s; response2 := Some r2 |})
    (fun e => print [PStr "Failed to fetch data: "; PExn e]) ;;
  a <- load_local "response1" response1 ;;
  b <- load_local "response2" response2 ;;
  merged_data <- Prog.lift (merge_responses a b) ;;
  Prog.extern (EWriteJson cache_path (VList merged_data))
              (write_json w cache_path (VList merged_data)) ;;
  print [PStr "Data saved to countries_raw.json"] ;;
  Prog.ret (VList merged_data).

Definition fetch_country_data {S : Type} (urls : list (string * string))
  : prog S value :=
  Prog.call fetch_frame0 (fetch_country_data_body urls).

(** The [try] statement of [load_country_data_from_json]: [Some data] when
    it returns [data], [None] when control falls through to [return None]. *)
Definition load_country_data_from_json {S : Type} (json_path : string)
  : prog S value :=
  r <- Prog.try_except
         (ex <- Prog.extern (EPathExists json_path) (Ok (path_exists w json_path)) ;;
          if ex : bool then
            data <- Prog.extern (EReadJson json_path) (read_json w json_path) ;;
            Prog.ret (Some data)
          else
            print [PStr "JSON file "; PStr json_path; PStr " not found"] ;;
            Prog.ret None)
         (fun e => print [PStr "Failed to load JSON: "; PExn e] ;; Prog.ret None) ;;
  match r with
  | Some data => Prog.ret data
  | None => Prog.ret VNone
  end.

(** [None] is Python's [None]; a connection object is truthy. *)
Definition connect_db {S : Type} : prog S (option connection) :=
  Prog.extern (ELoadDotenv creds_path) (Ok tt) ;;
  Prog.try_except
    (conn <- Prog.extern EConnect (db_connect w) ;;
     print [PStr "Connected to database."] ;;
     Prog.ret (Some conn))
    (fun e => print [PStr "Database connection failed: "; PExn e] ;;
              Prog.ret None).

Definition create_table {S : Type} (cur : cursor) (sql_file : string)
  : prog S unit :=
  sql <- Prog.extern (EReadText sql_file) (read_text w sql_file) ;;
  Prog.extern (EExecute sql) (db_execute w sql) ;;
  print [PStr "Executed SQL from "; PStr sql_file;
         PStr " and the table created with uniqueness constraint."].

Definition insert_countries {S : Type} (cur : cursor) (countries : value)
    (sql_file : string) : prog S unit :=
  items <- Prog.lift (py_iter countries) ;;
  records <- Prog.lift (ResultMonad.mapM transform_country items) ;;
  sql <- Prog.extern (EReadText sql_file) (read_text w sql_file) ;;
  Prog.extern (EExecuteMany sql records) (db_executemany w sql records) ;;
  print [PStr "Inserted "; PNat (length records); PStr " records from ";
         PStr sql_file].

Definition main (urls : list (string * string)) : prog unit unit :=
  countries <- (if USE_CACHED then load_country_data_from_json cache_path
                else Prog.ret VNone) ;;
  countries <- (if is_none countries then
                  print [PStr "Fetching fresh data from API..."] ;;
                  fetch_country_data urls
                else Prog.ret countries) ;;
  (if negb (truthy countries) then Prog.raise (ValueError no_data_msg)
   else Prog.ret tt) ;;
  conn <- connect_db ;;
  match conn with
  | None => Prog.raise (ConnectionError no_connection_msg)
  | Some conn =>
      cur <- Prog.extern EOpenCursor (db_cursor w) ;;
      create_table cur ddl_path ;;
      insert_countries cur countries dml_path ;;
      Prog.extern ECommit (db_commit w) ;;
      Prog.extern ECloseCursor (db_close_cursor w) ;;
      Prog.extern ECloseConnection (db_close_connection w) ;;
      print [PStr "All done!"]
  end.

End Script.

(** A run of the script: [main()] from the command line. *)
Definition run_main (w : world) (urls : list (string * string)) : outcome unit unit :=
  main w urls tt.

Definition run_fetch (w : world) (urls : list (string * string)) : outcome unit value :=
  fetch_country_data w urls tt.

(** ** Specification vocabulary *)

Local Close Scope prog_scope.

(** [idd.suffixes] of a record, when [idd] is a mapping that has the key. *)
Definition idd_suffixes (d : dict) : option value :=
  match dict_lookup "idd" d with
  | Some (VDict i) => dict_lookup "suffixes" i
  | _ => None
  end.

(** The value of the local variable [idd], and of [idd.get('root', '')],
    when [idd] is absent or a mapping. *)
Definition idd_of (d : dict) : value :=
  match dict_lookup "idd" d with
  | Some v => v
  | None => VDict []
  end.

Definition idd_root (d : dict) : value :=
  match idd_of d with
  | VDict i =>
      match dict_lookup "root" i with
      | Some v => v
      | None => VStr EmptyString
      end
  | _ => VStr EmptyString
  end.

(** What an entry of [nativeName] or [currencies] adds to a joined field:
    its inner value, the empty string when the inner key is missing. *)
Definition contribution (key : string) (entry : value) : string :=
  match entry with
  | VDict e =>
      match dict_lookup key e with
      | Some (VStr s) => s
      | _ => EmptyString
      end
  | _ => EmptyString
  end.

(** [name.nativeName] with two entries, both without [common]. *)
Definition two_bare_native_names : dict :=
  [("name", VDict [("nativeName", VDict [("eng", VDict []);
                                         ("fra", VDict [("official", VStr "Pays")])])])].

Definition two_bare_currencies : dict :=
  [("currencies", VDict [("XYZ", VDict []); ("ABC", VDict [])])].

Definition two_capitals : dict :=
  [("capital", VList [VStr "Pretoria"; VStr "Cape Town"])].

Definition two_suffixes : dict :=
  [("idd", VDict [("root", VStr "+1"); ("suffixes", VList [VStr "201"; VStr "202"])])].

(** *** Shapes of a raw record *)

Definition is_str (v : value) : bool :=
  match v with VStr _ => true | _ => false end.

Definition is_mapping (v : value) : bool :=
  match v with VDict _ => true | _ => false end.

Definition is_sequence (v : value) : bool :=
  match v with VList _ => true | _ => false end.

Definition absent_or (p : value -> bool) (o : option value) : bool :=
  match o with
  | None => true
  | Some v => p v
  end.

(** The shape in which every documented optional field is absent or a
    mapping ([name], [currencies], [idd], [languages]), respectively a
    sequence ([capital], [continents], [idd.suffixes]). *)
Definition documented_shape (d : dict) : bool :=
  absent_or is_mapping (dict_lookup "name" d) &&
  absent_or is_mapping (dict_lookup "currencies" d) &&
  absent_or (fun idd => match idd with
                        | VDict i => absent_or is_sequence (dict_lookup "suffixes" i)
                        | _ => false
                        end) (dict_lookup "idd" d) &&
  absent_or is_mapping (dict_lookup "languages" d) &&
  absent_or is_sequence (dict_lookup "capital" d) &&
  absent_or is_sequence (dict_lookup "continents" d).

(** A sequence of strings; a mapping all of whose values satisfy [p]; a
    mapping in which each of [keys] is absent or a string. *)
Definition str_list (v : value) : bool :=
  match v with
  | VList l => forallb is_str l
  | _ => false
  end.

Definition dict_of (p : value -> bool) (v : value) : bool :=
  match v with
  | VDict d => forallb p (dict_values d)
  | _ => false
  end.

Definition entry_with (keys : list string) (v : value) : bool :=
  match v with
  | VDict e => forallb (fun k => absent_or is_str (dict_lookup k e)) keys
  | _ => false
  end.

Definition name_shape (v : value) : bool :=
  match v with
  | VDict nm =>
      absent_or (dict_of (entry_with ["common"])) (dict_lookup "nativeName" nm)
  | _ => false
  end.

Definition idd_shape (v : value) : bool :=
  match v with
  | VDict i =>
      absent_or is_str (dict_lookup "root" i) &&
      absent_or str_list (dict_lookup "suffixes" i)
  | _ => false
  end.

(** The documented shape with strings at every leaf that the transform joins
    or concatenates. *)
Definition well_shaped (d : dict) : bool :=
  absent_or name_shape (dict_lookup "name" d) &&
  absent_or (dict_of (entry_with ["name"; "symbol"])) (dict_lookup "currencies" d) &&
  absent_or idd_shape (dict_lookup "idd" d) &&
  absent_or (dict_of is_str) (dict_lookup "languages" d) &&
  absent_or str_list (dict_lookup "capital" d) &&
  absent_or str_list (dict_lookup "continents" d).

(** The record of [testland] with a currency whose symbol is JSON's [null]. *)
Definition null_symbol_record : dict :=
  [("name", VDict [("common", VStr "Testland")]);
   ("currencies", VDict [("XYZ", VDict [("name", VStr "Testcoin");
                                        ("symbol", VNone)])])].

(** A record with every documented field. *)
Definition full_record : dict :=
  [("name", VDict [("common", VStr "South Africa");
                   ("official", VStr "Republic of South Africa");
                   ("nativeName", VDict [("afr", VDict [("common", VStr "Suid-Afrika")]);
                                         ("eng", VDict [("common", VStr "South Africa")])])]);
   ("currencies", VDict [("ZAR", VDict [("name", VStr "South African rand");
                                        ("symbol", VStr "R")])]);
   ("idd", VDict [("root", VStr "+2"); ("suffixes", VList [VStr "7"])]);
   ("capital", VList [VStr "Pretoria"; VStr "Bloemfontein"; VStr "Cape Town"]);
   ("region", VStr "Africa");
   ("languages", VDict [("afr", VStr "Afrikaans"); ("eng", VStr "English")]);
   ("area", VInt 1221037);
   ("population", VInt 59308690);
   ("continents", VList [VStr "Africa"]);
   ("independent", VBool true);
   ("unMember", VBool true);
   ("startOfWeek", VStr "monday")].

(** *** Runs of the script *)

(** The outcome of [requests.get(urls[key]).json()], and the call it logs. *)
Definition response (w : world) (urls : list (string * string)) (key : string)
  : result value :=
  match py_subscript urls key with
  | Ok url => http_get_json w url
  | Raise e => Raise e
  end.

Definition request_trace (urls : list (string * string)) (key : string) : list event :=
  match py_subscript urls key with
  | Ok url => [EHttpGetJson url]
  | Raise _ => []
  end.

Definition fetch_failed_line (e : exn) : event :=
  EPrint [PStr "Failed to fetch data: "; PExn e].

Definition fetching_line : event :=
  EPrint [PStr "Fetching fresh data from API..."].

(** What the cache adapter yields to [main]. *)
Definition cached (w : world) : outcome unit value :=
  load_country_data_from_json w cache_path tt.

(** The calls of [connect_db] and of the database session. *)
Definition persistence_event (ev : event) : bool :=
  match ev with
  | ELoadDotenv _ | EConnect | EOpenCursor | EExecute _ | EExecuteMany _ _
  | ECommit | ECloseCursor | ECloseConnection => true
  | _ => false
  end.

Definition is_record (v : value) : bool := is_mapping v.

(** The endpoints of a configuration. *)
Definition sample_urls : list (string * string) :=
  [("url1", "https://countries.example/v3.1/all?fields=name,currencies");
   ("url2", "https://countries.example/v3.1/all?fields=name,capital,region")].

(** A world in which the database and the SQL files are in order; the
    parameters are the outcomes that vary between the runs studied below:
    the two endpoints, the cache file ([None]: there is none), and the three
    steps made on the cursor and the connection. *)
Definition sample_world (http : string -> result value) (cache : option (result value))
    (execute executemany commit : result unit) : world :=
  {| http_get_json := http;
     path_exists := fun _ => match cache with Some _ => true | None => false end;
     read_json := fun _ => match cache with
                           | Some r => r
                           | None => Raise (ExternalError "FileNotFoundError")
                           end;
     write_json := fun _ _ => Ok tt;
     read_text := fun path => Ok ("-- statement read from " ++ path);
     db_connect := Ok Connection;
     db_cursor := Ok Cursor;
     db_execute := fun _ => execute;
     db_executemany := fun _ _ => executemany;
     db_commit := commit;
     db_close_cursor := Ok tt;
     db_close_connection := Ok tt |}.

Definition http_down (url : string) : result value :=
  Raise (ExternalError "requests.exceptions.ConnectionError").

(** The first endpoint answers, the second does not. *)
Definition http_second_down (url : string) : result value :=
  if String.eqb url "https://countries.example/v3.1/all?fields=name,currencies"
  then Ok (VList [testland])
  else Raise (ExternalError "requests.exceptions.ConnectionError").

Definition http_empty (url : string) : result value := Ok (VList []).

(** Three records from the first endpoint, two from the second; the records
    of a pair share the key [name]. *)
Definition http_three_two (url : string) : result value :=
  if String.eqb url "https://countries.example/v3.1/all?fields=name,currencies"
  then Ok (VList [VDict [("name", VStr "A1"); ("currencies", VDict [])];
                  VDict [("name", VStr "B1"); ("currencies", VDict [])];
                  VDict [("name", VStr "C1")]])
  else Ok (VList [VDict [("name", VStr "A2"); ("capital", VList [VStr "a"])];
                  VDict [("region", VStr "b"); ("name", VStr "B2")]]).

Definition no_cache_http_down : world :=
  sample_world http_down None (Ok tt) (Ok tt) (Ok tt).

Definition no_cache_second_down : world :=
  sample_world http_second_down None (Ok tt) (Ok tt) (Ok tt).

Definition no_cache_http_empty : world :=
  sample_world http_empty None (Ok tt) (Ok tt) (Ok tt).

Definition no_cache_three_two : world :=
  sample_world http_three_two None (Ok tt) (Ok tt) (Ok tt).

(** The cache file holds [[]]; the endpoints would answer with records. *)
Definition empty_cache_http_up : world :=
  sample_world http_three_two (Some (Ok (VList []))) (Ok tt) (Ok tt) (Ok tt).

(** The cache holds one record; one step of the database session fails. *)
Definition cache_hit (execute executemany commit : result unit) : world :=
  sample_world http_down (Some (Ok (VList [testland]))) execute executemany commit.

Definition db_error : exn := ExternalError "psycopg2.Error".

(** The database part of [main], from [connect_db()] on. *)
Definition persist (w : world) (countries : value) : prog unit unit :=
  (conn <- connect_db w ;;
   match conn with
   | None => Prog.raise (ConnectionError no_connection_msg)
   | Some conn =>
       cur <- Prog.extern EOpenCursor (db_cursor w) ;;
       create_table w cur ddl_path ;;
       insert_countries w cur countries dml_path ;;
       Prog.extern ECommit (db_commit w) ;;
       Prog.extern ECloseCursor (db_close_cursor w) ;;
       Prog.extern ECloseConnection (db_close_connection w) ;;
       print [PStr "All done!"]
   end)%prog.

(** The records [main] goes on with once the cache has yielded [v]: [v]
    itself, or what the fetch returns when [v] is [None]. *)
Definition acquire (w : world) (urls : list (string * string)) (v : value)
  : outcome unit value :=
  if is_none v then
    let f := run_fetch w urls in
    {| trace := fetching_line :: trace f; frame := tt; res := res f |}
  else {| trace := []; frame := tt; res := Ok v |}.

Definition release_event (ev : event) : bool :=
  match ev with
  | ECloseCursor | ECloseConnection => true
  | _ => false
  end.

Definition cursor_acquired (t : list event) : bool :=
  existsb (fun ev => match ev with EOpenCursor => true | _ => false end) t.

(** A run that acquired the cursor, ended with the database error and
    closed neither the cursor nor the connection. *)
Definition session_left_open (w : world) : Prop :=
  cursor_acquired (trace (run_main w sample_urls)) = true /\
  res (run_main w sample_urls) = Raise db_error /\
  existsb release_event (trace (run_main w sample_urls)) = false.

(** *** Vocabulary of the further properties *)

(** [d.get(key, default)] as a value. *)
Definition lookup_or (d : dict) (key : string) (default : value) : value :=
  match dict_lookup key d with
  | Some v => v
  | None => default
  end.

(** The keys of a record that [transform_country] reads. *)
Definition read_keys : list string :=
  ["name"; "currencies"; "idd"; "capital"; "region"; "subregion"; "languages";
   "area"; "population"; "continents"; "independent"; "unMember"; "startOfWeek"].

(** [testland_record] with its keys in the other order and a key that the
    transform does not read. *)
Definition testland_reordered : dict :=
  [("flag", VStr "TL");
   ("currencies", VDict [("XYZ", VDict [("name", VStr "Testcoin");
                                        ("symbol", VStr "T")])]);
   ("name", VDict [("common", VStr "Testland")])].

(** A record whose [area] is JSON's [null] and whose [population] is missing. *)
Definition null_area_record : dict :=
  [("name", VDict [("common", VStr "Testland"); ("official", VStr "State of Testland")]);
   ("area", VNone);
   ("region", VStr "Oceania");
   ("independent", VBool false)].

(** The calls made on the cursor and the connection once [connect_db] has
    returned. *)
Definition session_event (ev : event) : bool :=
  match ev with
  | EOpenCursor | EExecute _ | EExecuteMany _ _ | ECommit
  | ECloseCursor | ECloseConnection => true
  | _ => false
  end.

(** The calls of [fetch_country_data] to the outside. *)
Definition fetch_event (ev : event) : bool :=
  match ev with
  | EHttpGetJson _ | EWriteJson _ _ => true
  | _ => false
  end.

(** [w] with another outcome of [psycopg2.connect]. *)
Definition with_connect (w : world) (c : result connection) : world :=
  {| http_get_json := http_get_json w;
     path_exists := path_exists w;
     read_json := read_json w;
     write_json := write_json w;
     read_text := read_text w;
     db_connect := c;
     db_cursor := db_cursor w;
     db_execute := db_execute w;
     db_executemany := db_executemany w;
     db_commit := db_commit w;
     db_close_cursor := db_close_cursor w;
     db_close_connection := db_close_connection w |}.

Definition connection_refused : world :=
  with_connect (cache_hit (Ok tt) (Ok tt) (Ok tt))
               (Raise (ExternalError "psycopg2.OperationalError")).

(** The cache file exists and cannot be parsed. *)
Definition corrupt_cache : world :=
  sample_world http_three_two (Some (Raise (ExternalError "json.JSONDecodeError")))
               (Ok tt) (Ok tt) (Ok tt).

(** The lines [main] prints in the database part. *)
Definition connected_line : event := EPrint [PStr "Connected to database."].

Definition connection_failed_line (e : exn) : event :=
  EPrint [PStr "Database connection failed: "; PExn e].

Definition table_created_line : event :=
  EPrint [PStr "Executed SQL from "; PStr ddl_path;
          PStr " and the table created with uniqueness constraint."].

Definition inserted_line (n : nat) : event :=
  EPrint [PStr "Inserted "; PNat n; PStr " records from "; PStr dml_path].



(** A record whose [capital] is [null] and whose [idd.suffixes] is [false]. *)
Definition falsy_fields_record : dict :=
  [("capital", VNone); ("idd", VDict [("root", VStr "+1"); ("suffixes", VBool false)])].


(** A record that is not a mapping, among records that are. *)
Definition batch_with_bad_record : list value :=
  [testland; VStr "not a record"; VDict full_record].

Definition is_well_shaped (v : value) : bool :=
  match v with
  | VDict d => well_shaped d
  | _ => false
  end.

(** A world in which every call succeeds and the cache holds two records. *)
Definition all_well : world :=
  sample_world http_down (Some (Ok (VList [testland; VDict full_record])))
               (Ok tt) (Ok tt) (Ok tt).

(** The second endpoint answers with an error object instead of a list. *)
Definition http_error_payload (url : string) : result value :=
  if String.eqb url "https://countries.example/v3.1/all?fields=name,currencies"
  then Ok (VList [testland])
  else Ok (VDict [("status", VInt 404); ("message", VStr "Not Found")]).

Definition no_cache_error_payload : world :=
  sample_world http_error_payload None (Ok tt) (Ok tt) (Ok tt).

(** A response that cannot be iterated: [null], a number or a boolean. *)
Definition not_iterable (v : value) : bool :=
  match v with
  | VNone | VBool _ | VInt _ | VFloat _ => true
  | _ => false
  end.

(** ** Lemmas on the error monad and the dictionaries *)

Lemma bind_ok_inv {A B : Type} (m : result A) (f : A -> result B) (b : B) :
  ResultMonad.bind m f = Ok b -> exists a, m = Ok a /\ f a = Ok b.
Proof.
  destruct m as [a|e]; simpl; intros H; [exists a; auto | discriminate].
Qed.

(** Splits a successful chain of binds into its successful steps. *)
Ltac bind_inv H :=
  repeat match type of H with
         | ResultMonad.bind ?m _ = Ok _ =>
             let E := fresh "E" in
             destruct m eqn:E; simpl in H; [| discriminate H]
         end.

Lemma mapM_as_str_strs (ss : list string) :
  ResultMonad.mapM as_str (map VStr ss) = Ok ss.
Proof.
  induction ss as [|s ss IH]; simpl; [reflexivity|].
  rewrite IH. reflexivity.
Qed.

Lemma mapM_as_str_inv (items : list value) (ss : list string) :
  ResultMonad.mapM as_str items = Ok ss -> items = map VStr ss.
Proof.
  revert ss. induction items as [|v items IH]; simpl; intros ss H.
  - inversion H. reflexivity.
  - bind_inv H. inversion H; subst. destruct v; try discriminate.
    simpl in E. inversion E; subst. simpl. f_equal. auto.
Qed.

Lemma py_join_items_strs (sep : string) (ss : list string) :
  py_join_items sep (map VStr ss) = Ok (VStr (join sep ss)).
Proof. unfold py_join_items. rewrite mapM_as_str_strs. reflexivity. Qed.

Lemma py_join_items_inv (sep : string) (items : list value) (v : value) :
  py_join_items sep items = Ok v ->
  exists ss, items = map VStr ss /\ v = VStr (join sep ss).
Proof.
  unfold py_join_items. intros H. bind_inv H. inversion H; subst.
  exists a. split; [apply mapM_as_str_inv; assumption | reflexivity].
Qed.

Lemma py_add_str_inv (a b : value) (s : string) :
  py_add a b = Ok (VStr s) -> exists x y, a = VStr x /\ b = VStr y /\ s = x ++ y.
Proof.
  destruct a, b; simpl; intros H;
    repeat match type of H with
           | context [float_of_int ?z] => destruct (float_of_int z); simpl in H
           | context [match ?b with true => _ | false => _ end] => destruct b
           end;
    try discriminate H.
  inversion H. eauto.
Qed.

(** ** The transform *)

(** A returned row is the tuple of the seventeen field expressions, each of
    which returned. *)
Lemma transform_country_inv (country : value) (r : row) :
  transform_country country = Ok r ->
  exists name currencies idd f3 f5 f6 f7 f8,
    py_get country "name" (VDict []) = Ok name /\
    py_get country "currencies" (VDict []) = Ok currencies /\
    py_get country "idd" (VDict []) = Ok idd /\
    native_names name = Ok f3 /\
    joined_inner currencies "name" = Ok f5 /\
    joined_inner currencies "symbol" = Ok f6 /\
    calling_codes idd = Ok f7 /\
    capital_cities country = Ok f8 /\
    field 3 r = Some f3 /\ field 5 r = Some f5 /\ field 6 r = Some f6 /\
    field 7 r = Some f7 /\ field 8 r = Some f8 /\
    length r = 17%nat.
Proof.
  unfold transform_country. intros H. bind_inv H. inversion H; subst.
  do 8 eexists. repeat split; eauto.
Qed.

Lemma mapM_get_contribution (key : string) (es : list value) (ss : list string) :
  ResultMonad.mapM (fun entry => py_get entry key (VStr EmptyString)) es
  = Ok (map VStr ss) ->
  ss = map (contribution key) es.
Proof.
  revert ss. induction es as [|e es IH]; intros ss Hm.
  - simpl in Hm. destruct ss; [reflexivity | discriminate].
  - simpl in Hm. bind_inv Hm. destruct ss as [|s ss]; [discriminate|].
    simpl in Hm. injection Hm as Ha Ha0. subst a a0. simpl. f_equal.
    + destruct e; try discriminate. simpl in E. simpl.
      destruct (dict_lookup key d); inversion E; reflexivity.
    + apply IH. reflexivity.
Qed.

Lemma joined_inner_contribution (entries : dict) (key : string) (v : value) :
  joined_inner (VDict entries) key = Ok v ->
  v = VStr (join ", " (map (contribution key) (dict_values entries))).
Proof.
  unfold joined_inner, inner_values. cbn [py_values ResultMonad.bind]. intros H.
  bind_inv H. apply py_join_items_inv in H. destruct H as [ss [-> ->]].
  do 2 f_equal. apply mapM_get_contribution. assumption.
Qed.

(** C7: the record [{"name": {"common": "Testland"}, "currencies": {"XYZ":
    {"name": "Testcoin", "symbol": "T"}}}] is transformed to a row with
    common name "Testland", currency code "XYZ", currency name "Testcoin",
    currency symbol "T", capital "Unknown", calling code the empty string,
    and area and population 0. *)
Theorem transform_testland :
  exists r, transform_country testland = Ok r /\
    field 1 r = Some (VStr "Testland") /\
    field 4 r = Some (VStr "XYZ") /\
    field 5 r = Some (VStr "Testcoin") /\
    field 6 r = Some (VStr "T") /\
    field 7 r = Some (VStr EmptyString) /\
    field 8 r = Some (VStr "Unknown") /\
    field 12 r = Some (VInt 0) /\
    field 13 r = Some (VInt 0).
Proof. eexists. split; [reflexivity|]. repeat split. Qed.

Lemma capital_cities_default (d : dict) :
  dict_lookup "capital" d = None \/ dict_lookup "capital" d = Some (VList []) ->
  capital_cities (VDict d) = Ok (VStr "Unknown").
Proof.
  unfold capital_cities. simpl. intros [H|H]; rewrite H; reflexivity.
Qed.

Lemma capital_cities_joined (d : dict) (ss : list string) :
  ss <> [] ->
  dict_lookup "capital" d = Some (VList (map VStr ss)) ->
  capital_cities (VDict d) = Ok (VStr (join ", " ss)).
Proof.
  unfold capital_cities. simpl. intros Hne H. rewrite H. simpl.
  destruct ss as [|s ss]; [contradiction|]. simpl map. cbv iota beta.
  unfold py_join. simpl ResultMonad.bind.
  apply (py_join_items_strs ", " (s :: ss)).
Qed.

(** C1: when [capital] is absent or an empty sequence, the 8th field of the
    returned tuple is the string "Unknown"; when it is a non-empty sequence
    of strings, the 8th field is its elements joined with ", ".  In both
    cases the expression of the field itself returns, and every tuple that
    [transform_country] returns carries its value at position 8. *)
Theorem capital_field (d : dict) :
  (dict_lookup "capital" d = None \/ dict_lookup "capital" d = Some (VList []) ->
   capital_cities (VDict d) = Ok (VStr "Unknown") /\
   forall r, transform_country (VDict d) = Ok r ->
             field 8 r = Some (VStr "Unknown")) /\
  (forall ss, ss <> [] ->
   dict_lookup "capital" d = Some (VList (map VStr ss)) ->
   capital_cities (VDict d) = Ok (VStr (join ", " ss)) /\
   forall r, transform_country (VDict d) = Ok r ->
             field 8 r = Some (VStr (join ", " ss))).
Proof.
  split.
  - intros H. pose proof (capital_cities_default d H) as Hc. split; [exact Hc|].
    intros r Hr. apply transform_country_inv in Hr.
    destruct Hr as (? & ? & ? & ? & ? & ? & ? & f8 & _ & _ & _ & _ & _ & _ & _ & H8 & _ & _ & _ & _ & F8 & _).
    rewrite Hc in H8. inversion H8; subst. exact F8.
  - intros ss Hne H. pose proof (capital_cities_joined d ss Hne H) as Hc.
    split; [exact Hc|].
    intros r Hr. apply transform_country_inv in Hr.
    destruct Hr as (? & ? & ? & ? & ? & ? & ? & f8 & _ & _ & _ & _ & _ & _ & _ & H8 & _ & _ & _ & _ & F8 & _).
    rewrite Hc in H8. inversion H8; subst. exact F8.
Qed.

Lemma capital_field_witness :
  (capital_cities testland = Ok (VStr "Unknown") /\
   exists r, transform_country testland = Ok r /\ field 8 r = Some (VStr "Unknown")) /\
  (capital_cities (VDict two_capitals) = Ok (VStr "Pretoria, Cape Town") /\
   exists r, transform_country (VDict two_capitals) = Ok r /\
             field 8 r = Some (VStr "Pretoria, Cape Town")).
Proof.
  split.
  - destruct (proj1 (capital_field testland_record) (or_introl eq_refl)) as [Hc Hr].
    split; [exact Hc|]. eexists. split; [reflexivity|]. apply Hr. reflexivity.
  - destruct (proj2 (capital_field two_capitals) ["Pretoria"; "Cape Town"]
                ltac:(discriminate) eq_refl) as [Hc Hr].
    split; [exact Hc|]. eexists. split; [reflexivity|]. apply Hr. reflexivity.
Defined.

Lemma calling_codes_empty (i : dict) :
  dict_lookup "suffixes" i = None \/ dict_lookup "suffixes" i = Some (VList []) ->
  calling_codes (VDict i) = Ok (VStr EmptyString).
Proof.
  unfold calling_codes. simpl. intros [H|H]; rewrite H; reflexivity.
Qed.

Lemma mapM_codes_strs (g : result value) (root : string) (ss : list string) :
  g = Ok (VStr root) ->
  ResultMonad.mapM
    (fun suffix => ResultMonad.bind g (fun r => py_add r suffix)) (map VStr ss)
  = Ok (map VStr (map (append root) ss)).
Proof.
  intros ->. induction ss as [|s ss IH]; [reflexivity|].
  cbn [map ResultMonad.mapM]. cbn [map] in IH. rewrite IH. reflexivity.
Qed.

Lemma mapM_codes_inv (g : result value) (items : list value) (codes : list string) :
  items <> [] ->
  ResultMonad.mapM
    (fun suffix => ResultMonad.bind g (fun r => py_add r suffix)) items
  = Ok (map VStr codes) ->
  exists root ss,
    g = Ok (VStr root) /\ items = map VStr ss /\ codes = map (append root) ss.
Proof.
  revert codes. induction items as [|v items IH]; intros codes Hne H; [contradiction|].
  cbn [ResultMonad.mapM] in H. destruct g as [r|e]; [|discriminate H].
  cbn [ResultMonad.bind] in H, IH.
  destruct (py_add r v) as [a|e] eqn:Ea; [|discriminate H].
  cbn [ResultMonad.bind] in H.
  destruct (ResultMonad.mapM (fun suffix => py_add r suffix) items) as [rest|e] eqn:Er;
    [|discriminate H].
  cbn [ResultMonad.bind] in H.
  destruct codes as [|c codes]; [discriminate|].
  injection H as Ha Hrest. subst a rest.
  apply py_add_str_inv in Ea. destruct Ea as (root & s & -> & -> & ->).
  destruct items as [|v' items'].
  - simpl in Er. destruct codes; [|discriminate].
    exists root, [s]. auto.
  - destruct (IH codes ltac:(discriminate) eq_refl) as (root' & ss & Hr & Hi & Hc).
    injection Hr as <-.
    exists root, (s :: ss). rewrite Hi, Hc. auto.
Qed.

Lemma calling_codes_joined (i : dict) (root : string) (ss : list string) :
  ss <> [] ->
  py_get (VDict i) "root" (VStr EmptyString) = Ok (VStr root) ->
  dict_lookup "suffixes" i = Some (VList (map VStr ss)) ->
  calling_codes (VDict i) = Ok (VStr (join ", " (map (append root) ss))).
Proof.
  intros Hne Hroot Hs. unfold calling_codes.
  change (py_get (VDict i) "suffixes" VNone)
    with (match dict_lookup "suffixes" i with Some v => Ok v | None => Ok VNone end).
  change (py_get (VDict i) "suffixes" (VList []))
    with (match dict_lookup "suffixes" i with Some v => Ok v | None => Ok (VList []) end).
  rewrite Hs. destruct ss as [|s ss]; [contradiction|].
  cbn [truthy map ResultMonad.bind py_iter].
  change (VStr s :: map VStr ss) with (map VStr (s :: ss)).
  rewrite (mapM_codes_strs _ root (s :: ss) Hroot). cbn [ResultMonad.bind].
  apply (py_join_items_strs ", " (map (append root) (s :: ss))).
Qed.

Lemma calling_codes_inv (i : dict) (l : list value) (v : value) :
  l <> [] ->
  dict_lookup "suffixes" i = Some (VList l) ->
  calling_codes (VDict i) = Ok v ->
  exists root ss,
    py_get (VDict i) "root" (VStr EmptyString) = Ok (VStr root) /\
    l = map VStr ss /\ v = VStr (join ", " (map (append root) ss)).
Proof.
  intros Hne Hs. unfold calling_codes.
  change (py_get (VDict i) "suffixes" VNone)
    with (match dict_lookup "suffixes" i with Some v => Ok v | None => Ok VNone end).
  change (py_get (VDict i) "suffixes" (VList []))
    with (match dict_lookup "suffixes" i with Some v => Ok v | None => Ok (VList []) end).
  rewrite Hs. destruct l as [|x l]; [contradiction|].
  cbn [truthy ResultMonad.bind py_iter].
  intros H. bind_inv H.
  apply py_join_items_inv in H. destruct H as (codes & -> & ->).
  destruct (mapM_codes_inv _ (x :: l) codes Hne E) as (root & ss & Hr & Hl & ->).
  exists root, ss. auto.
Qed.

Lemma idd_suffixes_idd_of (d : dict) (v : value) :
  idd_suffixes d = Some v ->
  exists i, idd_of d = VDict i /\ dict_lookup "suffixes" i = Some v.
Proof.
  unfold idd_suffixes, idd_of. destruct (dict_lookup "idd" d) as [[]|]; try discriminate.
  intros H. eauto.
Qed.

Lemma idd_root_get (d i : dict) :
  idd_of d = VDict i -> py_get (VDict i) "root" (VStr EmptyString) = Ok (idd_root d).
Proof.
  unfold idd_root. intros ->. simpl. destruct (dict_lookup "root" i); reflexivity.
Qed.

Lemma transform_country_field7 (d : dict) (r : row) :
  transform_country (VDict d) = Ok r ->
  exists f7, calling_codes (idd_of d) = Ok f7 /\ field 7 r = Some f7.
Proof.
  intros Hr. apply transform_country_inv in Hr.
  destruct Hr as (? & ? & idd & ? & ? & ? & f7 & ? & _ & _ & Hidd & _ & _ & _ & H7 & _ & _ & _ & _ & F7 & _).
  exists f7. split; [| exact F7].
  unfold idd_of. simpl in Hidd.
  destruct (dict_lookup "idd" d); inversion Hidd; subst; exact H7.
Qed.

(** C2: when [idd.suffixes] is absent or an empty sequence, the 7th field
    (calling codes) of the returned tuple is the empty string, and not
    "Unknown"; when it is a non-empty sequence, the field is the
    concatenations [idd.root + suffix] of its elements, joined with ", "
    (a tuple is returned only when the root, '' by default, and the
    suffixes are strings).  The expression of the field returns these values
    whenever [idd] is absent or a mapping. *)
Theorem calling_codes_field (d : dict) :
  (idd_suffixes d = None \/ idd_suffixes d = Some (VList []) ->
   ((exists i, idd_of d = VDict i) ->
    calling_codes (idd_of d) = Ok (VStr EmptyString)) /\
   forall r, transform_country (VDict d) = Ok r ->
             field 7 r = Some (VStr EmptyString) /\
             field 7 r <> Some (VStr "Unknown")) /\
  (forall l, l <> [] ->
   idd_suffixes d = Some (VList l) ->
   (forall root ss, idd_root d = VStr root -> l = map VStr ss ->
      calling_codes (idd_of d)
      = Ok (VStr (join ", " (map (append root) ss)))) /\
   forall r, transform_country (VDict d) = Ok r ->
     exists root ss,
       idd_root d = VStr root /\ l = map VStr ss /\
       field 7 r = Some (VStr (join ", " (map (append root) ss)))).
Proof.
  split.
  - intros H.
    assert (Hc : forall i, idd_of d = VDict i ->
                           calling_codes (idd_of d) = Ok (VStr EmptyString)).
    { intros i Hi. rewrite Hi. apply calling_codes_empty.
      unfold idd_suffixes, idd_of in *.
      destruct (dict_lookup "idd" d) as [v|].
      - subst v. exact H.
      - inversion Hi; subst. left. reflexivity. }
    split; [intros [i Hi]; eauto|].
    intros r Hr. destruct (transform_country_field7 d r Hr) as (f7 & H7 & F7).
    assert (f7 = VStr EmptyString) as ->.
    { destruct (idd_of d) eqn:Hi; try discriminate H7.
      rewrite (Hc _ eq_refl) in H7. inversion H7. reflexivity. }
    split; [exact F7 | rewrite F7; discriminate].
  - intros l Hne Hs.
    destruct (idd_suffixes_idd_of d _ Hs) as (i & Hi & Hl).
    pose proof (idd_root_get d i Hi) as Hroot.
    split.
    + intros root ss Hr ->. rewrite Hi. apply calling_codes_joined; auto.
      * intros E. apply Hne. rewrite E. reflexivity.
      * rewrite Hroot, Hr. reflexivity.
    + intros r Hr. destruct (transform_country_field7 d r Hr) as (f7 & H7 & F7).
      rewrite Hi in H7.
      destruct (calling_codes_inv i l f7 Hne Hl H7) as (root & ss & Hg & -> & ->).
      exists root, ss. repeat split; [| exact F7].
      rewrite Hroot in Hg. inversion Hg. reflexivity.
Qed.

Lemma calling_codes_field_witness :
  (calling_codes (idd_of testland_record) = Ok (VStr EmptyString) /\
   exists r, transform_country testland = Ok r /\ field 7 r = Some (VStr EmptyString)) /\
  (calling_codes (idd_of two_suffixes) = Ok (VStr "+1201, +1202") /\
   exists r, transform_country (VDict two_suffixes) = Ok r /\
             field 7 r = Some (VStr "+1201, +1202")).
Proof.
  split.
  - destruct (proj1 (calling_codes_field testland_record) (or_introl eq_refl))
      as [Hc Hr].
    split; [apply Hc; exists []; reflexivity|].
    eexists. split; [reflexivity|]. apply Hr. reflexivity.
  - destruct (proj2 (calling_codes_field two_suffixes) [VStr "201"; VStr "202"]
                ltac:(discriminate) eq_refl) as [Hc Hr].
    split; [exact (Hc "+1" ["201"; "202"] eq_refl eq_refl)|].
    destruct (Hr _ eq_refl) as (root & ss & Hroot & Hl & F7).
    eexists. split; [reflexivity|].
    injection Hroot as <-. destruct ss as [|a [|b [|c ss]]]; try discriminate Hl.
    injection Hl as <- <-. exact F7.
Defined.

(** C10: in the joined fields an entry that lacks its inner key is not
    skipped: every entry of [name.nativeName] adds its [common] to the 3rd
    field, every entry of [currencies] its [name] to the 5th and its
    [symbol] to the 6th, and an entry without the inner key adds the empty
    string, so that its separator remains. *)
Theorem missing_inner_key_keeps_separator (d : dict) (r : row) :
  transform_country (VDict d) = Ok r ->
  (forall key e, dict_lookup key e = None -> contribution key (VDict e) = EmptyString) /\
  (forall nm entries,
     dict_lookup "name" d = Some (VDict nm) ->
     dict_lookup "nativeName" nm = Some (VDict entries) ->
     field 3 r
     = Some (VStr (join ", " (map (contribution "common") (dict_values entries))))) /\
  (forall entries,
     dict_lookup "currencies" d = Some (VDict entries) ->
     field 5 r
     = Some (VStr (join ", " (map (contribution "name") (dict_values entries)))) /\
     field 6 r
     = Some (VStr (join ", " (map (contribution "symbol") (dict_values entries))))).
Proof.
  intros Hr. apply transform_country_inv in Hr.
  destruct Hr as (name & cur & ? & f3 & f5 & f6 & ? & ? & Hname & Hcur & _ & H3 & H5 & H6
                  & _ & _ & F3 & F5 & F6 & _).
  simpl in Hname, Hcur. split; [| split].
  - intros key e He. simpl. rewrite He. reflexivity.
  - intros nm entries Hn Hnn. rewrite Hn in Hname. inversion Hname; subst name.
    unfold native_names in H3. simpl in H3. rewrite Hnn in H3.
    cbn [ResultMonad.bind] in H3.
    rewrite F3. f_equal. apply joined_inner_contribution; assumption.
  - intros entries Hc. rewrite Hc in Hcur. inversion Hcur; subst cur.
    rewrite F5, F6. split; f_equal; apply joined_inner_contribution; assumption.
Qed.

Lemma missing_inner_key_keeps_separator_witness :
  (exists r, transform_country (VDict two_bare_native_names) = Ok r /\
             field 3 r = Some (VStr ", ")) /\
  (exists r, transform_country (VDict two_bare_currencies) = Ok r /\
             field 4 r = Some (VStr "XYZ, ABC") /\
             field 5 r = Some (VStr ", ") /\ field 6 r = Some (VStr ", ")).
Proof.
  split.
  - eexists. split; [reflexivity|].
    exact (proj1 (proj2 (missing_inner_key_keeps_separator
                           two_bare_native_names _ eq_refl)) _ _ eq_refl eq_refl).
  - eexists. split; [reflexivity|]. split; [reflexivity|].
    exact (proj2 (proj2 (missing_inner_key_keeps_separator
                           two_bare_currencies _ eq_refl)) _ eq_refl).
Defined.

(** *** Records of the documented shape are transformed without exception *)

Lemma forallb_is_str (l : list value) :
  forallb is_str l = true -> exists ss, l = map VStr ss.
Proof.
  induction l as [|v l IH]; simpl; intros H.
  - exists []. reflexivity.
  - apply andb_prop in H. destruct H as [Hv Hl].
    destruct v; try discriminate Hv. destruct (IH Hl) as [ss ->].
    exists (s :: ss). reflexivity.
Qed.

Lemma py_join_items_total (sep : string) (l : list value) :
  forallb is_str l = true -> exists s, py_join_items sep l = Ok (VStr s).
Proof.
  intros H. destruct (forallb_is_str l H) as [ss ->].
  rewrite py_join_items_strs. eauto.
Qed.

Lemma py_join_total (sep : string) (v : value) :
  str_list v = true -> exists s, py_join sep v = Ok (VStr s).
Proof.
  destruct v; try discriminate. simpl. intros H.
  unfold py_join. cbn [py_iter ResultMonad.bind]. apply py_join_items_total, H.
Qed.

Lemma inner_values_total (keys : list string) (key : string) (entries : list value) :
  In key keys ->
  forallb (entry_with keys) entries = true ->
  exists items,
    ResultMonad.mapM (fun entry => py_get entry key (VStr EmptyString)) entries
    = Ok items /\ forallb is_str items = true.
Proof.
  intros Hin. induction entries as [|e es IH]; simpl; intros H.
  - exists []. auto.
  - apply andb_prop in H. destruct H as [He Hes].
    destruct (IH Hes) as (items & -> & Hitems).
    destruct e; try discriminate He. simpl in He.
    rewrite forallb_forall in He. specialize (He key Hin).
    cbn [py_get]. destruct (dict_lookup key d) as [v|]; simpl in He |- *.
    + exists (v :: items). simpl. rewrite He, Hitems. auto.
    + exists (VStr EmptyString :: items). simpl. rewrite Hitems. auto.
Qed.

Lemma joined_inner_total (keys : list string) (key : string) (entries : value) :
  In key keys ->
  dict_of (entry_with keys) entries = true ->
  exists s, joined_inner entries key = Ok (VStr s).
Proof.
  intros Hin H. destruct entries; try discriminate H. simpl in H.
  unfold joined_inner, inner_values. cbn [py_values ResultMonad.bind].
  destruct (inner_values_total keys key (dict_values d) Hin H) as (items & -> & Hs).
  cbn [ResultMonad.bind]. apply py_join_items_total, Hs.
Qed.

Lemma native_names_total (name : value) :
  name_shape name = true -> exists s, native_names name = Ok (VStr s).
Proof.
  destruct name; try discriminate. simpl. intros H.
  unfold native_names. cbn [py_get].
  destruct (dict_lookup "nativeName" d) as [native|]; cbn [ResultMonad.bind].
  - apply (joined_inner_total ["common"]); [left; reflexivity | exact H].
  - exists EmptyString. reflexivity.
Qed.

Lemma currency_codes_total (currencies : value) :
  is_mapping currencies = true -> exists s, currency_codes currencies = Ok (VStr s).
Proof.
  destruct currencies; try discriminate. intros _.
  unfold currency_codes. cbn [py_keys ResultMonad.bind].
  rewrite py_join_items_strs. eauto.
Qed.

Lemma dict_of_is_mapping (p : value -> bool) (v : value) :
  dict_of p v = true -> is_mapping v = true.
Proof. destruct v; try discriminate. reflexivity. Qed.

Lemma calling_codes_total (idd : value) :
  idd_shape idd = true -> exists s, calling_codes idd = Ok (VStr s).
Proof.
  destruct idd as [| | | | | |i]; try discriminate. simpl. intros H.
  apply andb_prop in H. destruct H as [Hroot Hsuf].
  destruct (dict_lookup "suffixes" i) as [suf|] eqn:Es.
  - simpl in Hsuf. destruct suf; try discriminate Hsuf. simpl in Hsuf.
    destruct (forallb_is_str l Hsuf) as [ss ->].
    destruct ss as [|s ss].
    + exists EmptyString. apply calling_codes_empty. right. exact Es.
    + assert (Hr : exists root,
                 py_get (VDict i) "root" (VStr EmptyString) = Ok (VStr root)).
      { cbn [py_get]. destruct (dict_lookup "root" i) as [v|]; simpl in Hroot.
        - destruct v; try discriminate Hroot. eauto.
        - eauto. }
      destruct Hr as [root Hr]. eexists.
      apply (calling_codes_joined i root (s :: ss)); [discriminate | exact Hr | exact Es].
  - exists EmptyString. apply calling_codes_empty. left. exact Es.
Qed.

Lemma capital_cities_total (d : dict) :
  absent_or str_list (dict_lookup "capital" d) = true ->
  exists s, capital_cities (VDict d) = Ok (VStr s).
Proof.
  intros H. destruct (dict_lookup "capital" d) as [c|] eqn:Ec; simpl in H.
  - destruct c; try discriminate H. simpl in H.
    destruct (forallb_is_str l H) as [ss ->]. destruct ss as [|s ss].
    + eexists. apply capital_cities_default. right. exact Ec.
    + eexists. apply (capital_cities_joined d (s :: ss)); [discriminate | exact Ec].
  - eexists. apply capital_cities_default. left. exact Ec.
Qed.

Lemma languages_joined_total (d : dict) :
  absent_or (dict_of is_str) (dict_lookup "languages" d) = true ->
  exists s, languages_joined (VDict d) = Ok (VStr s).
Proof.
  intros H. unfold languages_joined. cbn [py_get].
  destruct (dict_lookup "languages" d) as [l|]; simpl in H; cbn [ResultMonad.bind].
  - destruct l; try discriminate H. simpl in H. cbn [py_values ResultMonad.bind].
    apply py_join_items_total, H.
  - exists EmptyString. reflexivity.
Qed.

Lemma continents_joined_total (d : dict) :
  absent_or str_list (dict_lookup "continents" d) = true ->
  exists s, continents_joined (VDict d) = Ok (VStr s).
Proof.
  intros H. unfold continents_joined. cbn [py_get].
  destruct (dict_lookup "continents" d) as [l|]; simpl in H; cbn [ResultMonad.bind].
  - apply py_join_total, H.
  - exists EmptyString. reflexivity.
Qed.

Lemma py_get_dict_total (d : dict) (key : string) (default : value) :
  exists v, py_get (VDict d) key default = Ok v.
Proof. simpl. destruct (dict_lookup key d); eauto. Qed.

Lemma transform_country_total (d : dict) :
  well_shaped d = true ->
  exists r, transform_country (VDict d) = Ok r /\ length r = 17%nat.
Proof.
  unfold well_shaped. intros H.
  repeat (apply andb_prop in H; let H' := fresh "H" in destruct H as [H H']).
  unfold transform_country.
  assert (Hname : exists name, py_get (VDict d) "name" (VDict []) = Ok name /\
                               name_shape name = true).
  { cbn [py_get]. destruct (dict_lookup "name" d); simpl in H; eauto. }
  assert (Hcur : exists cur, py_get (VDict d) "currencies" (VDict []) = Ok cur /\
                             dict_of (entry_with ["name"; "symbol"]) cur = true).
  { cbn [py_get]. destruct (dict_lookup "currencies" d); simpl in H4; eauto. }
  assert (Hidd : exists idd, py_get (VDict d) "idd" (VDict []) = Ok idd /\
                             idd_shape idd = true).
  { cbn [py_get]. destruct (dict_lookup "idd" d); simpl in H3; eauto. }
  destruct Hname as (name & -> & Sname). destruct Hcur as (cur & -> & Scur).
  destruct Hidd as (idd & -> & Sidd). cbn [ResultMonad.bind].
  destruct name as [| | | | | |nm]; try discriminate Sname.
  destruct (py_get_dict_total nm "common" VNone) as [f1 ->].
  destruct (py_get_dict_total nm "official" VNone) as [f2 ->].
  destruct (native_names_total _ Sname) as [f3 ->].
  destruct (currency_codes_total _ (dict_of_is_mapping _ _ Scur)) as [f4 ->].
  destruct (joined_inner_total ["name"; "symbol"] "name" cur
              (or_introl eq_refl) Scur) as [f5 ->].
  destruct (joined_inner_total ["name"; "symbol"] "symbol" cur
              (or_intror (or_introl eq_refl)) Scur) as [f6 ->].
  destruct (calling_codes_total _ Sidd) as [f7 ->].
  destruct (capital_cities_total d H1) as [f8 ->].
  destruct (py_get_dict_total d "region" VNone) as [f9 ->].
  destruct (py_get_dict_total d "subregion" VNone) as [f10 ->].
  destruct (languages_joined_total d H2) as [f11 ->].
  destruct (py_get_dict_total d "area" (VInt 0)) as [f12 ->].
  destruct (py_get_dict_total d "population" (VInt 0)) as [f13 ->].
  destruct (continents_joined_total d H0) as [f14 ->].
  destruct (py_get_dict_total d "independent" VNone) as [f15 ->].
  destruct (py_get_dict_total d "unMember" VNone) as [f16 ->].
  destruct (py_get_dict_total d "startOfWeek" VNone) as [f17 ->].
  cbn [ResultMonad.bind]. eexists. split; reflexivity.
Qed.

Lemma dict_lookup_set (d : dict) (k k' : string) (v : value) :
  dict_lookup k' (dict_set k v d)
  = if String.eqb k' k then Some v else dict_lookup k' d.
Proof.
  induction d as [|[k0 v0] d IH]; simpl.
  - reflexivity.
  - destruct (String.eqb_spec k k0) as [->|Hk]; simpl.
    + destruct (String.eqb k' k0); reflexivity.
    + rewrite IH. destruct (String.eqb_spec k' k0) as [->|Hk'].
      * destruct (String.eqb_spec k0 k) as [->|_]; [contradiction Hk|]; reflexivity.
      * reflexivity.
Qed.

Lemma py_get_set (d : dict) (k key : string) (v default : value) :
  py_get (VDict (dict_set k v d)) key default
  = if String.eqb key k then Ok v else py_get (VDict d) key default.
Proof.
  cbn [py_get]. rewrite dict_lookup_set. destruct (String.eqb key k); reflexivity.
Qed.

Lemma py_get_absent (d : dict) (key : string) (default : value) :
  dict_lookup key d = None -> py_get (VDict d) key default = Ok default.
Proof. intros H. cbn [py_get]. rewrite H. reflexivity. Qed.

(** A missing nested map is read as the empty map. *)
Lemma transform_country_missing_map (d : dict) (k : string) :
  In k ["name"; "currencies"; "idd"; "languages"] ->
  dict_lookup k d = None ->
  transform_country (VDict (dict_set k (VDict []) d)) = transform_country (VDict d).
Proof.
  intros Hin Hk.
  unfold transform_country, capital_cities, languages_joined, continents_joined.
  rewrite !py_get_set.
  repeat (destruct Hin as [<-|Hin]; [
    cbn [String.eqb Ascii.eqb Bool.eqb];
    rewrite (py_get_absent d _ (VDict []) Hk); reflexivity |]).
  contradiction Hin.
Qed.

(** C6 (as stated, refuted): a record in which every documented optional
    field is absent or of the documented nested shape is not always
    transformed: a currency whose [symbol] is JSON's [null] is joined by
    [', '.join], which raises [TypeError]. *)
Theorem documented_shape_can_raise :
  documented_shape null_symbol_record = true /\
  transform_country (VDict null_symbol_record) = Raise TypeError /\
  ~ (forall d, documented_shape d = true ->
               exists r, transform_country (VDict d) = Ok r).
Proof.
  split; [reflexivity|]. split; [reflexivity|].
  intros H. destruct (H null_symbol_record eq_refl) as [r Hr]. discriminate Hr.
Qed.

(** C6 (amended): for every raw record whose documented optional fields are
    each absent or of the documented nested shape, with a string at every
    leaf that the transform joins or concatenates, [transform_country]
    raises no exception and returns a tuple of 17 fields; a missing nested
    map ([name], [currencies], [idd], [languages]) is treated as the empty
    map. *)
Theorem well_shaped_record_is_transformed (d : dict) :
  well_shaped d = true ->
  (exists r, transform_country (VDict d) = Ok r /\ length r = 17%nat) /\
  (forall k, In k ["name"; "currencies"; "idd"; "languages"] ->
             dict_lookup k d = None ->
             transform_country (VDict (dict_set k (VDict []) d))
             = transform_country (VDict d)).
Proof.
  intros H. split.
  - apply transform_country_total, H.
  - intros k. apply transform_country_missing_map.
Qed.

Lemma well_shaped_record_is_transformed_witness :
  (exists r, transform_country (VDict full_record) = Ok r /\ length r = 17%nat) /\
  (exists r, transform_country testland = Ok r /\ length r = 17%nat) /\
  transform_country (VDict (dict_set "idd" (VDict []) testland_record))
  = transform_country testland.
Proof.
  split; [exact (proj1 (well_shaped_record_is_transformed full_record eq_refl))|].
  split; [exact (proj1 (well_shaped_record_is_transformed testland_record eq_refl))|].
  exact (proj2 (well_shaped_record_is_transformed testland_record eq_refl)
               "idd" (or_intror (or_intror (or_introl eq_refl))) eq_refl).
Defined.

(** ** The adapters and the orchestrator *)

Lemma outcome_unit_eta {A : Type} (o : outcome unit A) :
  o = {| trace := trace o; frame := tt; res := res o |}.
Proof. destruct o as [t [] r]. reflexivity. Qed.

(** The cache adapter never raises: it yields the content of the file, or
    [None]. *)
Lemma load_outcome (w : world) (path : string) :
  load_country_data_from_json w path tt =
  if path_exists w path then
    match read_json w path with
    | Ok data =>
        {| trace := [EPathExists path; EReadJson path]; frame := tt; res := Ok data |}
    | Raise e =>
        {| trace := [EPathExists path; EReadJson path;
                     EPrint [PStr "Failed to load JSON: "; PExn e]];
           frame := tt; res := Ok VNone |}
    end
  else
    {| trace := [EPathExists path;
                 EPrint [PStr "JSON file "; PStr path; PStr " not found"]];
       frame := tt; res := Ok VNone |}.
Proof.
  unfold load_country_data_from_json, Prog.bind, Prog.try_except, Prog.extern, print,
    Prog.ret.
  cbn. destruct (path_exists w path); cbn; [destruct (read_json w path); cbn|];
    reflexivity.
Qed.

(** The four ways [fetch_country_data] ends. *)
Lemma fetch_outcome (w : world) (urls : list (string * string)) :
  run_fetch w urls =
  match response w urls "url1" with
  | Raise e =>
      {| trace := request_trace urls "url1" ++ [fetch_failed_line e];
         frame := tt; res := Raise (UnboundLocalError "response1") |}
  | Ok r1 =>
      match response w urls "url2" with
      | Raise e =>
          {| trace := request_trace urls "url1" ++ request_trace urls "url2"
                      ++ [fetch_failed_line e];
             frame := tt; res := Raise (UnboundLocalError "response2") |}
      | Ok r2 =>
          match merge_responses r1 r2 with
          | Raise e =>
              {| trace := request_trace urls "url1" ++ request_trace urls "url2";
                 frame := tt; res := Raise e |}
          | Ok merged =>
              match write_json w cache_path (VList merged) with
              | Raise e =>
                  {| trace := request_trace urls "url1" ++ request_trace urls "url2"
                              ++ [EWriteJson cache_path (VList merged)];
                     frame := tt; res := Raise e |}
              | Ok _ =>
                  {| trace := request_trace urls "url1" ++ request_trace urls "url2"
                              ++ [EWriteJson cache_path (VList merged);
                                  EPrint [PStr "Data saved to countries_raw.json"]];
                     frame := tt; res := Ok (VList merged) |}
              end
          end
      end
  end.
Proof.
  unfold run_fetch, fetch_country_data, fetch_country_data_body, request_json,
    response, request_trace, load_local, fetch_failed_line, print,
    Prog.call, Prog.bind, Prog.try_except, Prog.extern, Prog.lift, Prog.ret,
    Prog.raise, Prog.get_frame, Prog.set_frame.
  cbn.
  destruct (py_subscript urls "url1") as [u1|e1]; cbn; [|reflexivity].
  destruct (http_get_json w u1) as [r1|e1]; cbn; [|reflexivity].
  destruct (py_subscript urls "url2") as [u2|e2]; cbn; [|reflexivity].
  destruct (http_get_json w u2) as [r2|e2]; cbn; [|reflexivity].
  destruct (merge_responses r1 r2) as [merged|e]; cbn; [|reflexivity].
  destruct (write_json w cache_path (VList merged)) as [[]|e]; cbn; reflexivity.
Qed.

(** [main], stage by stage: the cache, then the fetch when the cache yielded
    [None], then the test of the records, then the database. *)
Lemma main_outcome (w : world) (urls : list (string * string)) :
  run_main w urls =
  match res (cached w) with
  | Raise e => {| trace := trace (cached w); frame := tt; res := Raise e |}
  | Ok v =>
      match res (acquire w urls v) with
      | Raise e =>
          {| trace := trace (cached w) ++ trace (acquire w urls v);
             frame := tt; res := Raise e |}
      | Ok countries =>
          if truthy countries then
            {| trace := trace (cached w) ++ trace (acquire w urls v)
                        ++ trace (persist w countries tt);
               frame := tt; res := res (persist w countries tt) |}
          else
            {| trace := trace (cached w) ++ trace (acquire w urls v);
               frame := tt; res := Raise (ValueError no_data_msg) |}
      end
  end.
Proof.
  unfold run_main, cached, acquire, run_fetch.
  change (main w urls)
    with (Prog.bind (load_country_data_from_json w cache_path)
            (fun cache =>
               Prog.bind (if is_none cache
                          then Prog.bind (print [PStr "Fetching fresh data from API..."])
                                         (fun _ => fetch_country_data w urls)
                          else Prog.ret cache)
                 (fun countries =>
                    Prog.bind (if negb (truthy countries)
                               then Prog.raise (ValueError no_data_msg)
                               else Prog.ret tt)
                      (fun _ => persist w countries)))).
  unfold Prog.bind, print, Prog.extern, Prog.ret, Prog.raise, fetching_line.
  destruct (load_country_data_from_json w cache_path tt) as [tc [] [v|e]];
    cbn [res trace frame]; [|reflexivity].
  destruct (is_none v).
  - destruct (fetch_country_data w urls tt) as [tf [] [countries|e]];
      cbn [res trace frame app]; [|reflexivity].
    destruct (truthy countries); cbn [negb res trace frame app].
    + destruct (persist w countries tt) as [tp [] rp]. reflexivity.
    + rewrite app_nil_r. reflexivity.
  - cbn [res trace frame app].
    destruct (truthy v); cbn [negb res trace frame app].
    + destruct (persist w v tt) as [tp [] rp]. reflexivity.
    + reflexivity.
Qed.

(** *** fetch_country_data *)

(** C3 (the code departs from it): when one of the two requests raises,
    [fetch_country_data] logs the failure and then raises
    [UnboundLocalError] at [zip(response1, response2)], where it reads the
    variable that the failed request left unbound; it returns no list. *)
Theorem fetch_failure_raises (w : world) (urls : list (string * string)) (e : exn) :
  response w urls "url1" = Raise e \/
  ((exists r1, response w urls "url1" = Ok r1) /\ response w urls "url2" = Raise e) ->
  (exists var, res (run_fetch w urls) = Raise (UnboundLocalError var)) /\
  In (fetch_failed_line e) (trace (run_fetch w urls)) /\
  res (run_fetch w urls) <> Ok (VList []).
Proof.
  intros H. rewrite fetch_outcome.
  destruct H as [H1 | [[r1 H1] H2]].
  - rewrite H1. cbn [res trace]. repeat split.
    + eauto.
    + apply in_or_app. right. left. reflexivity.
    + discriminate.
  - rewrite H1, H2. cbn [res trace]. repeat split.
    + eauto.
    + apply in_or_app. right. apply in_or_app. right. left. reflexivity.
    + discriminate.
Qed.

Lemma fetch_failure_raises_witness :
  res (run_fetch no_cache_http_down sample_urls) = Raise (UnboundLocalError "response1") /\
  res (run_fetch no_cache_second_down sample_urls) = Raise (UnboundLocalError "response2") /\
  In (fetch_failed_line (ExternalError "requests.exceptions.ConnectionError"))
     (trace (run_fetch no_cache_http_down sample_urls)) /\
  res (run_fetch no_cache_second_down sample_urls) <> Ok (VList []).
Proof.
  split; [reflexivity|]. split; [reflexivity|]. split.
  - exact (proj1 (proj2 (fetch_failure_raises no_cache_http_down sample_urls _
                           (or_introl eq_refl)))).
  - exact (proj2 (proj2 (fetch_failure_raises no_cache_second_down sample_urls _
                           (or_intror (conj (ex_intro _ _ eq_refl) eq_refl))))).
Defined.

Lemma zip_length {A B : Type} (a : list A) (b : list B) :
  length (zip a b) = Nat.min (length a) (length b).
Proof.
  revert b. induction a as [|x a IH]; intros [|y b]; simpl; auto.
Qed.

Lemma zip_nth_error {A B : Type} (a : list A) (b : list B) (i : nat) (x : A) (y : B) :
  nth_error a i = Some x -> nth_error b i = Some y ->
  nth_error (zip a b) i = Some (x, y).
Proof.
  revert b i. induction a as [|x0 a IH]; intros [|y0 b] [|i]; simpl;
    try discriminate; auto.
  intros Hx Hy. inversion Hx; inversion Hy; reflexivity.
Qed.

Lemma mapM_length {A B : Type} (f : A -> result B) (l : list A) (l' : list B) :
  ResultMonad.mapM f l = Ok l' -> length l' = length l.
Proof.
  revert l'. induction l as [|x l IH]; simpl; intros l' H.
  - inversion H. reflexivity.
  - bind_inv H. inversion H; subst. simpl. f_equal. apply IH. reflexivity.
Qed.

Lemma mapM_nth_error {A B : Type} (f : A -> result B) (l : list A) (l' : list B)
    (i : nat) (x : A) :
  ResultMonad.mapM f l = Ok l' -> nth_error l i = Some x ->
  exists y, f x = Ok y /\ nth_error l' i = Some y.
Proof.
  revert l' i. induction l as [|x0 l IH]; simpl; intros l' i H Hx.
  - destruct i; discriminate.
  - bind_inv H. inversion H; subst. destruct i as [|i]; simpl in Hx |- *.
    + inversion Hx; subst. eauto.
    + apply (IH a0 i eq_refl Hx).
Qed.

Lemma mapM_total {A B : Type} (f : A -> result B) (l : list A) :
  (forall x, In x l -> exists y, f x = Ok y) -> exists l', ResultMonad.mapM f l = Ok l'.
Proof.
  induction l as [|x l IH]; simpl; intros H.
  - eauto.
  - destruct (H x (or_introl eq_refl)) as [y ->].
    destruct IH as [l' ->]; [intros x' Hx'; apply H; right; exact Hx'|].
    simpl. eauto.
Qed.

Lemma zip_in {A B : Type} (a : list A) (b : list B) (p : A * B) :
  In p (zip a b) -> In (fst p) a /\ In (snd p) b.
Proof.
  revert b. induction a as [|x a IH]; intros [|y b]; simpl; try contradiction.
  intros [<-|H]; [simpl; auto|]. destruct (IH b H). auto.
Qed.

Lemma dict_lookup_absent (k : string) (d : dict) :
  ~ In k (dict_keys d) -> dict_lookup k d = None.
Proof.
  induction d as [|[k0 v0] d IH]; simpl; intros H; [reflexivity|].
  destruct (String.eqb_spec k k0) as [->|_].
  - exfalso. apply H. left. reflexivity.
  - apply IH. intros Hin. apply H. right. exact Hin.
Qed.

(** [{**a, **b}] is the union of [a] and [b] in which [b] wins. *)
Lemma dict_merge_lookup (a b : dict) (k : string) :
  dict_wf b ->
  dict_lookup k (dict_merge a b)
  = match dict_lookup k b with
    | Some v => Some v
    | None => dict_lookup k a
    end.
Proof.
  unfold dict_merge, dict_wf. revert a.
  induction b as [|[k0 v0] b IH]; intros a Hwf; cbn [fold_left fst snd].
  - reflexivity.
  - cbn [dict_keys map fst] in Hwf. inversion Hwf as [|? ? Hnotin Hwf']; subst.
    rewrite (IH _ Hwf'). cbn [dict_lookup]. rewrite dict_lookup_set.
    destruct (String.eqb_spec k k0) as [->|_].
    + rewrite (dict_lookup_absent k0 b Hnotin). reflexivity.
    + reflexivity.
Qed.

Lemma py_dict_unpack2_inv (x y v : value) :
  py_dict_unpack2 x y = Ok v ->
  exists d1 d2, x = VDict d1 /\ y = VDict d2 /\ v = VDict (dict_merge d1 d2).
Proof.
  destruct x; try discriminate. destruct y; try discriminate.
  simpl. intros H. inversion H. eauto.
Qed.

Lemma merge_responses_lists (l1 l2 merged : list value) :
  merge_responses (VList l1) (VList l2) = Ok merged ->
  length merged = Nat.min (length l1) (length l2) /\
  forall i x y, nth_error l1 i = Some x -> nth_error l2 i = Some y ->
    exists d1 d2, x = VDict d1 /\ y = VDict d2 /\
                  nth_error merged i = Some (VDict (dict_merge d1 d2)).
Proof.
  unfold merge_responses. cbn [py_iter ResultMonad.bind]. intros H. split.
  - rewrite (mapM_length _ _ _ H). apply zip_length.
  - intros i x y Hx Hy.
    destruct (mapM_nth_error _ _ _ i (x, y) H (zip_nth_error _ _ _ _ _ Hx Hy))
      as (v & Hv & Hi).
    cbn [fst snd] in Hv. apply py_dict_unpack2_inv in Hv.
    destruct Hv as (d1 & d2 & -> & -> & ->). eauto.
Qed.

Lemma merge_responses_total (l1 l2 : list value) :
  (forall x, In x l1 -> is_record x = true) ->
  (forall y, In y l2 -> is_record y = true) ->
  exists merged, merge_responses (VList l1) (VList l2) = Ok merged.
Proof.
  intros H1 H2. unfold merge_responses. cbn [py_iter ResultMonad.bind].
  apply mapM_total. intros [x y] Hin. apply zip_in in Hin. destruct Hin as [Hx Hy].
  cbn [fst snd] in *. specialize (H1 x Hx). specialize (H2 y Hy).
  destruct x; try discriminate H1. destruct y; try discriminate H2.
  simpl. eauto.
Qed.

(** C4: for two fetched response lists of lengths m and n, the list that
    [fetch_country_data] returns has length min(m, n), and its record at
    each index is the shallow union of the two records at that index, the
    value of the second response winning on every key present in both.  The
    function returns that list whenever the elements are records and the
    cache file can be written. *)
Theorem fetch_merges_by_position (w : world) (urls : list (string * string))
    (l1 l2 : list value) :
  response w urls "url1" = Ok (VList l1) ->
  response w urls "url2" = Ok (VList l2) ->
  ((forall x, In x l1 -> is_record x = true) ->
   (forall y, In y l2 -> is_record y = true) ->
   (forall data, write_json w cache_path data = Ok tt) ->
   exists merged, res (run_fetch w urls) = Ok (VList merged)) /\
  (forall out, res (run_fetch w urls) = Ok out ->
   exists merged,
     out = VList merged /\
     length merged = Nat.min (length l1) (length l2) /\
     forall i x y, nth_error l1 i = Some x -> nth_error l2 i = Some y ->
       exists d1 d2,
         x = VDict d1 /\ y = VDict d2 /\
         nth_error merged i = Some (VDict (dict_merge d1 d2)) /\
         (dict_wf d2 ->
          forall k, dict_lookup k (dict_merge d1 d2)
                    = match dict_lookup k d2 with
                      | Some v => Some v
                      | None => dict_lookup k d1
                      end)).
Proof.
  intros R1 R2. rewrite fetch_outcome, R1, R2. split.
  - intros H1 H2 Hw. destruct (merge_responses_total l1 l2 H1 H2) as [merged ->].
    rewrite Hw. cbn [res]. eauto.
  - intros out. destruct (merge_responses (VList l1) (VList l2)) as [merged|e] eqn:Em;
      [|discriminate].
    destruct (write_json w cache_path (VList merged)) as [[]|e]; [|discriminate].
    cbn [res]. intros H. inversion H; subst out. exists merged.
    destruct (merge_responses_lists l1 l2 merged Em) as [Hlen Hnth].
    split; [reflexivity|]. split; [exact Hlen|].
    intros i x y Hx Hy. destruct (Hnth i x y Hx Hy) as (d1 & d2 & -> & -> & Hm).
    exists d1, d2. repeat split; [exact Hm|].
    intros Hwf k. apply dict_merge_lookup, Hwf.
Qed.

Lemma fetch_merges_by_position_witness :
  res (run_fetch no_cache_three_two sample_urls)
  = Ok (VList [VDict [("name", VStr "A2"); ("currencies", VDict []);
                      ("capital", VList [VStr "a"])];
               VDict [("name", VStr "B2"); ("currencies", VDict []);
                      ("region", VStr "b")]]) /\
  exists merged,
    res (run_fetch no_cache_three_two sample_urls) = Ok (VList merged) /\
    length merged = 2%nat.
Proof.
  split; [reflexivity|].
  destruct (proj2 (fetch_merges_by_position no_cache_three_two sample_urls _ _
                     eq_refl eq_refl) _ eq_refl) as (merged & Hout & Hlen & _).
  exists merged. split; [rewrite <- Hout; reflexivity | exact Hlen].
Defined.

(** *** main *)

Lemma cached_yields (w : world) : exists v, res (cached w) = Ok v.
Proof.
  unfold cached. rewrite load_outcome.
  destruct (path_exists w cache_path); [destruct (read_json w cache_path)|];
    cbn [res]; eauto.
Qed.

Lemma cached_trace_clean (w : world) :
  Forall (fun ev => persistence_event ev = false) (trace (cached w)).
Proof.
  unfold cached. rewrite load_outcome.
  destruct (path_exists w cache_path); [destruct (read_json w cache_path)|];
    cbn [trace]; repeat constructor.
Qed.

Lemma request_trace_clean (urls : list (string * string)) (key : string) :
  Forall (fun ev => persistence_event ev = false) (request_trace urls key).
Proof.
  unfold request_trace. destruct (py_subscript urls key); repeat constructor.
Qed.

Lemma fetch_trace_clean (w : world) (urls : list (string * string)) :
  Forall (fun ev => persistence_event ev = false) (trace (run_fetch w urls)).
Proof.
  rewrite fetch_outcome.
  destruct (response w urls "url1"); [destruct (response w urls "url2");
    [destruct (merge_responses a a0); [destruct (write_json w cache_path (VList a1))|]|]|];
    cbn [trace]; repeat (apply Forall_app; split);
    try apply request_trace_clean; repeat constructor.
Qed.

Lemma acquire_trace_clean (w : world) (urls : list (string * string)) (v : value) :
  Forall (fun ev => persistence_event ev = false) (trace (acquire w urls v)).
Proof.
  unfold acquire. destruct (is_none v); cbn [trace].
  - constructor; [reflexivity | apply fetch_trace_clean].
  - constructor.
Qed.

Lemma is_none_true (v : value) : is_none v = true <-> v = VNone.
Proof. destruct v; simpl; split; intros H; try discriminate; reflexivity. Qed.

(** C5 (as stated, refuted): when the cache file holds the empty list, the
    cache adapter yields an empty record list and [main] does not invoke the
    fetch: it raises the "no data" error right after reading the cache,
    although the fetch would have returned records. *)
Theorem empty_cached_list_skips_fetch :
  res (cached empty_cache_http_up) = Ok (VList []) /\
  run_main empty_cache_http_up sample_urls
  = {| trace := [EPathExists cache_path; EReadJson cache_path];
       frame := tt;
       res := Raise (ValueError no_data_msg) |} /\
  ~ In fetching_line (trace (run_main empty_cache_http_up sample_urls)) /\
  exists countries,
    res (run_fetch empty_cache_http_up sample_urls) = Ok countries /\
    truthy countries = true.
Proof.
  split; [reflexivity|]. split; [reflexivity|]. split.
  - cbn. intros [H|[H|[]]]; discriminate H.
  - eexists. split; reflexivity.
Qed.

(** C5 (amended): [main] tries the cache adapter first; whenever the cache
    yields [None] it invokes the remote fetch, and whenever the cache yields
    anything else it keeps that value and makes no fetch; it fails fatally
    with the "no data" error when the records so acquired are empty, and
    goes on to the database when they are not. *)
Theorem main_acquires_records (w : world) (urls : list (string * string)) :
  exists v,
    res (cached w) = Ok v /\
    (exists rest, trace (run_main w urls) = (trace (cached w) ++ rest)%list) /\
    (v = VNone ->
     exists rest,
       trace (run_main w urls)
       = (trace (cached w) ++ fetching_line :: trace (run_fetch w urls) ++ rest)%list) /\
    (v <> VNone -> acquire w urls v = {| trace := []; frame := tt; res := Ok v |}) /\
    (forall countries,
       res (acquire w urls v) = Ok countries ->
       if truthy countries then
         run_main w urls
         = {| trace := trace (cached w) ++ trace (acquire w urls v)
                       ++ trace (persist w countries tt);
              frame := tt;
              res := res (persist w countries tt) |}
       else
         run_main w urls
         = {| trace := trace (cached w) ++ trace (acquire w urls v);
              frame := tt;
              res := Raise (ValueError no_data_msg) |}).
Proof.
  destruct (cached_yields w) as [v Hv]. exists v. split; [exact Hv|].
  pose proof (main_outcome w urls) as Hm. rewrite Hv in Hm.
  split; [|split; [|split]].
  - rewrite Hm. destruct (res (acquire w urls v)) as [c|e];
      [destruct (truthy c)|]; cbn [trace]; eauto.
  - intros ->. rewrite Hm. unfold acquire. cbn [is_none trace res].
    destruct (res (run_fetch w urls)) as [c|e]; [destruct (truthy c)|]; cbn [trace].
    + rewrite <- app_comm_cons. eauto.
    + exists []. rewrite app_nil_r. reflexivity.
    + exists []. rewrite app_nil_r. reflexivity.
  - intros Hne. unfold acquire. destruct (is_none v) eqn:E; [|reflexivity].
    apply is_none_true in E. contradiction.
  - intros countries Hc. rewrite Hm, Hc. destruct (truthy countries); reflexivity.
Qed.

Lemma main_acquires_records_witness :
  res (cached no_cache_http_empty) = Ok VNone /\
  In fetching_line (trace (run_main no_cache_http_empty sample_urls)) /\
  res (run_main no_cache_http_empty sample_urls) = Raise (ValueError no_data_msg).
Proof.
  destruct (main_acquires_records no_cache_http_empty sample_urls)
    as (v & Hv & _ & Hfetch & _ & Hcheck).
  assert (v = VNone) as -> by (cbn in Hv; inversion Hv; reflexivity).
  split; [exact Hv|]. split.
  - destruct (Hfetch eq_refl) as [rest ->]. apply in_or_app. right. left. reflexivity.
  - specialize (Hcheck (VList []) eq_refl). cbn [truthy] in Hcheck.
    rewrite Hcheck. reflexivity.
Defined.

(** C8: in every run in which the cache and the fetch both yield no usable
    records ([None] or an empty list from the cache, an empty list from the
    fetch), [main] raises the "no data" error and makes no call of
    [connect_db] or of the database session before it ends. *)
Theorem no_data_aborts_before_database (w : world) (urls : list (string * string))
    (vc vf : value) :
  res (cached w) = Ok vc -> truthy vc = false ->
  res (run_fetch w urls) = Ok vf -> truthy vf = false ->
  res (run_main w urls) = Raise (ValueError no_data_msg) /\
  Forall (fun ev => persistence_event ev = false) (trace (run_main w urls)).
Proof.
  intros Hc Tc Hf Tf. rewrite main_outcome, Hc.
  assert (Ha : exists countries,
             res (acquire w urls vc) = Ok countries /\ truthy countries = false).
  { unfold acquire. destruct (is_none vc); cbn [res]; eauto. }
  destruct Ha as (countries & -> & ->). cbn [res trace]. split; [reflexivity|].
  apply Forall_app. split; [apply cached_trace_clean | apply acquire_trace_clean].
Qed.

Lemma no_data_aborts_before_database_witness :
  res (run_main no_cache_http_empty sample_urls) = Raise (ValueError no_data_msg) /\
  Forall (fun ev => persistence_event ev = false)
         (trace (run_main no_cache_http_empty sample_urls)).
Proof.
  exact (no_data_aborts_before_database no_cache_http_empty sample_urls
           VNone (VList []) eq_refl eq_refl eq_refl eq_refl).
Defined.

(** When the fetch raises instead, [main] ends with that exception, also
    before any call of the database part. *)
Lemma failed_fetch_aborts_before_database (w : world) (urls : list (string * string))
    (e : exn) :
  res (cached w) = Ok VNone ->
  res (run_fetch w urls) = Raise e ->
  res (run_main w urls) = Raise e /\
  Forall (fun ev => persistence_event ev = false) (trace (run_main w urls)).
Proof.
  intros Hc Hf. rewrite main_outcome, Hc.
  assert (Ha : res (acquire w urls VNone) = Raise e) by exact Hf.
  rewrite Ha. cbn [res trace]. split; [reflexivity|].
  apply Forall_app. split; [apply cached_trace_clean | apply acquire_trace_clean].
Qed.

(** The cursor and the connection are closed only on the path on which
    [create_table], [insert_countries] and [conn.commit()] all returned. *)
Lemma persist_releases_only_after_commit (w : world) (countries : value) :
  existsb release_event (trace (persist w countries tt)) = true ->
  In ECommit (trace (persist w countries tt)) /\ db_commit w = Ok tt.
Proof.
  unfold persist, connect_db, create_table, insert_countries, print,
    Prog.bind, Prog.try_except, Prog.extern, Prog.lift, Prog.ret, Prog.raise.
  destruct (db_connect w) as [conn|e]; [|discriminate].
  destruct (db_cursor w) as [cur|e]; [|discriminate].
  destruct (read_text w ddl_path) as [ddl|e]; [|discriminate].
  destruct (db_execute w ddl) as [[]|e]; [|discriminate].
  destruct (py_iter countries) as [items|e]; [|discriminate].
  destruct (ResultMonad.mapM transform_country items) as [records|e]; [|discriminate].
  destruct (read_text w dml_path) as [dml|e]; [|discriminate].
  destruct (db_executemany w dml records) as [[]|e]; [|discriminate].
  destruct (db_commit w) as [[]|e]; [|discriminate].
  intros _. split; [|reflexivity].
  destruct (db_close_cursor w) as [[]|e]; [destruct (db_close_connection w) as [[]|e]|];
    cbn; intuition.
Qed.

Lemma clean_trace_no_release (t : list event) :
  Forall (fun ev => persistence_event ev = false) t -> existsb release_event t = false.
Proof.
  induction 1 as [|ev t Hev _ IH]; [reflexivity|].
  cbn [existsb]. rewrite IH. destruct ev; try discriminate Hev; reflexivity.
Qed.

Lemma main_releases_only_after_commit (w : world) (urls : list (string * string)) :
  existsb release_event (trace (run_main w urls)) = true ->
  In ECommit (trace (run_main w urls)) /\ db_commit w = Ok tt.
Proof.
  rewrite main_outcome. destruct (cached_yields w) as [v Hv]. rewrite Hv.
  pose proof (clean_trace_no_release _ (cached_trace_clean w)) as Hc.
  pose proof (clean_trace_no_release _ (acquire_trace_clean w urls v)) as Ha.
  destruct (res (acquire w urls v)) as [countries|e];
    [destruct (truthy countries)|]; cbn [trace];
    rewrite ?existsb_app, Hc, Ha; cbn [orb]; try discriminate.
  intros H. destruct (persist_releases_only_after_commit w countries H) as [Hin Hcommit].
  split; [|exact Hcommit].
  apply in_or_app. right. apply in_or_app. right. exact Hin.
Qed.

(** C9 (the code departs from it): once the cursor and the connection have
    been acquired, a failure of the create-table step, of the bulk insert or
    of the commit ends the run with that exception and with neither
    [cursor.close()] nor [conn.close()] called; only the run in which the
    three steps succeed releases them. *)
Theorem failed_step_leaves_session_open :
  session_left_open (cache_hit (Raise db_error) (Ok tt) (Ok tt)) /\
  session_left_open (cache_hit (Ok tt) (Raise db_error) (Ok tt)) /\
  session_left_open (cache_hit (Ok tt) (Ok tt) (Raise db_error)) /\
  cursor_acquired (trace (run_main (cache_hit (Ok tt) (Ok tt) (Ok tt)) sample_urls))
  = true /\
  res (run_main (cache_hit (Ok tt) (Ok tt) (Ok tt)) sample_urls) = Ok tt /\
  existsb release_event
    (trace (run_main (cache_hit (Ok tt) (Ok tt) (Ok tt)) sample_urls)) = true.
Proof. unfold session_left_open. repeat split. Qed.

(** ** Further properties of the transform *)

Lemma py_get_lookup_or (d : dict) (key : string) (default : value) :
  py_get (VDict d) key default = Ok (lookup_or d key default).
Proof. unfold lookup_or. cbn [py_get]. destruct (dict_lookup key d); reflexivity. Qed.

(** The scalar fields are passed through as they are: [region],
    [subregion], [independent], [unMember] and [startOfWeek] with [None] for
    a missing key, [area] and [population] with 0 for a missing key, and the
    common and official names out of [name].  A key that is present with
    JSON's [null] is passed as [None]; the default is for a missing key only. *)
Theorem scalar_fields_pass_through (d : dict) (r : row) :
  transform_country (VDict d) = Ok r ->
  (exists nm, lookup_or d "name" (VDict []) = VDict nm /\
              field 1 r = Some (lookup_or nm "common" VNone) /\
              field 2 r = Some (lookup_or nm "official" VNone)) /\
  field 9 r = Some (lookup_or d "region" VNone) /\
  field 10 r = Some (lookup_or d "subregion" VNone) /\
  field 12 r = Some (lookup_or d "area" (VInt 0)) /\
  field 13 r = Some (lookup_or d "population" (VInt 0)) /\
  field 15 r = Some (lookup_or d "independent" VNone) /\
  field 16 r = Some (lookup_or d "unMember" VNone) /\
  field 17 r = Some (lookup_or d "startOfWeek" VNone).
Proof.
  unfold transform_country. rewrite !py_get_lookup_or. cbn [ResultMonad.bind].
  destruct (lookup_or d "name" (VDict [])) as [| | | | | |nm]; try discriminate.
  rewrite !py_get_lookup_or. cbn [ResultMonad.bind].
  intros H. bind_inv H. inversion H; subst r.
  split; [exists nm|]; repeat split.
Qed.

Lemma scalar_fields_pass_through_witness :
  exists r, transform_country (VDict null_area_record) = Ok r /\
            field 1 r = Some (VStr "Testland") /\
            field 2 r = Some (VStr "State of Testland") /\
            field 9 r = Some (VStr "Oceania") /\
            field 12 r = Some VNone /\
            field 13 r = Some (VInt 0) /\
            field 15 r = Some (VBool false) /\
            field 17 r = Some VNone.
Proof.
  eexists. split; [reflexivity|].
  destruct (scalar_fields_pass_through null_area_record _ eq_refl)
    as ((nm & Hnm & H1 & H2) & H9 & _ & H12 & H13 & H15 & _ & H17).
  injection Hnm as <-.
  repeat split; assumption.
Defined.

(** [transform_country] looks at a record through thirteen keys only: two
    records that agree on them are transformed alike, to the same row or the
    same exception, whatever their other keys and the order of their keys. *)
Theorem transform_reads_thirteen_keys (d d' : dict) :
  (forall k, In k read_keys -> dict_lookup k d = dict_lookup k d') ->
  transform_country (VDict d) = transform_country (VDict d').
Proof.
  intros H.
  unfold transform_country, capital_cities, languages_joined, continents_joined.
  cbn [py_get].
  repeat match goal with
         | |- context [dict_lookup ?k d] =>
             rewrite (H k) by (unfold read_keys; simpl; tauto)
         end.
  reflexivity.
Qed.

Lemma transform_reads_thirteen_keys_witness :
  transform_country (VDict testland_reordered) = transform_country testland.
Proof.
  apply (transform_reads_thirteen_keys testland_reordered testland_record).
  intros k Hk. unfold read_keys in Hk. simpl in Hk.
  repeat (destruct Hk as [<-|Hk]; [reflexivity|]). contradiction Hk.
Defined.

Lemma transform_country_field8 (d : dict) (r : row) :
  transform_country (VDict d) = Ok r ->
  exists f8, capital_cities (VDict d) = Ok f8 /\ field 8 r = Some f8.
Proof.
  intros Hr. apply transform_country_inv in Hr.
  destruct Hr as (? & ? & ? & ? & ? & ? & ? & f8 & _ & _ & _ & _ & _ & _ & _ & H8
                  & _ & _ & _ & _ & F8 & _).
  eauto.
Qed.


Lemma capital_cities_falsy (d : dict) (v : value) :
  dict_lookup "capital" d = Some v -> truthy v = false ->
  capital_cities (VDict d) = Ok (VStr "Unknown").
Proof.
  intros Hv Hf. unfold capital_cities. cbn [py_get]. rewrite Hv.
  cbn [ResultMonad.bind]. rewrite Hf. reflexivity.
Qed.

Lemma calling_codes_falsy (i : dict) (v : value) :
  dict_lookup "suffixes" i = Some v -> truthy v = false ->
  calling_codes (VDict i) = Ok (VStr EmptyString).
Proof.
  intros Hv Hf. unfold calling_codes. cbn [py_get]. rewrite Hv.
  cbn [ResultMonad.bind]. rewrite Hf. reflexivity.
Qed.

(** The defaults of [capital] and of the calling codes are chosen by
    truthiness: any falsy [capital] (null, false, 0, the empty string, list
    or mapping) gives "Unknown", and any falsy [idd.suffixes] gives the
    empty string. *)
Theorem falsy_values_take_the_default (d : dict) (v : value) :
  truthy v = false ->
  (dict_lookup "capital" d = Some v ->
   capital_cities (VDict d) = Ok (VStr "Unknown") /\
   forall r, transform_country (VDict d) = Ok r -> field 8 r = Some (VStr "Unknown")) /\
  (idd_suffixes d = Some v ->
   calling_codes (idd_of d) = Ok (VStr EmptyString) /\
   forall r, transform_country (VDict d) = Ok r -> field 7 r = Some (VStr EmptyString)).
Proof.
  intros Hf. split.
  - intros Hv. pose proof (capital_cities_falsy d v Hv Hf) as Hc. split; [exact Hc|].
    intros r Hr. destruct (transform_country_field8 d r Hr) as (f8 & H8 & F8).
    rewrite Hc in H8. inversion H8; subst f8. exact F8.
  - intros Hs. destruct (idd_suffixes_idd_of d v Hs) as (i & Hi & Hv).
    rewrite Hi. pose proof (calling_codes_falsy i v Hv Hf) as Hc. split; [exact Hc|].
    intros r Hr. destruct (transform_country_field7 d r Hr) as (f7 & H7 & F7).
    rewrite Hi, Hc in H7. inversion H7; subst f7. exact F7.
Qed.

Lemma falsy_values_take_the_default_witness :
  exists r, transform_country (VDict falsy_fields_record) = Ok r /\
            field 8 r = Some (VStr "Unknown") /\
            field 7 r = Some (VStr EmptyString).
Proof.
  eexists. split; [reflexivity|]. split.
  - exact (proj2 (proj1 (falsy_values_take_the_default falsy_fields_record VNone eq_refl)
                        eq_refl) _ eq_refl).
  - exact (proj2 (proj2 (falsy_values_take_the_default falsy_fields_record (VBool false)
                           eq_refl) eq_refl) _ eq_refl).
Defined.




(** ** Further properties of the adapters and of the orchestrator *)

(** The cache adapter never raises and calls nothing but the file system:
    it yields the parsed content of the file when the file exists and
    parses, and [None] otherwise; a missing file is not even opened, and a
    file that cannot be read or parsed is reported on standard output. *)
Theorem cache_adapter_never_raises (w : world) (path : string) :
  exists v,
    res (load_country_data_from_json w path tt) = Ok v /\
    (path_exists w path = false ->
     v = VNone /\ ~ In (EReadJson path) (trace (load_country_data_from_json w path tt))) /\
    (forall data, path_exists w path = true -> read_json w path = Ok data -> v = data) /\
    (forall e, path_exists w path = true -> read_json w path = Raise e ->
       v = VNone /\
       In (EPrint [PStr "Failed to load JSON: "; PExn e])
          (trace (load_country_data_from_json w path tt))) /\
    Forall (fun ev => fetch_event ev = false /\ persistence_event ev = false)
           (trace (load_country_data_from_json w path tt)).
Proof.
  rewrite load_outcome.
  destruct (path_exists w path); [destruct (read_json w path) as [data|e]|];
    cbn [res trace].
  - exists data. split; [reflexivity|]. split; [discriminate|].
    split; [intros data' _ H; inversion H; reflexivity|].
    split; [discriminate|]. repeat constructor.
  - exists VNone. split; [reflexivity|]. split; [discriminate|].
    split; [discriminate|]. split; [|repeat constructor].
    intros e' _ H. inversion H; subst e'. split; [reflexivity|]. cbn. auto.
  - exists VNone. split; [reflexivity|]. split.
    + intros _. split; [reflexivity|]. cbn. intros [H|[H|[]]]; discriminate H.
    + split; [discriminate|]. split; [discriminate|]. repeat constructor.
Qed.

Lemma cache_adapter_never_raises_witness :
  res (load_country_data_from_json corrupt_cache cache_path tt) = Ok VNone /\
  res (load_country_data_from_json no_cache_http_empty cache_path tt) = Ok VNone /\
  res (load_country_data_from_json empty_cache_http_up cache_path tt) = Ok (VList []).
Proof.
  destruct (cache_adapter_never_raises corrupt_cache cache_path) as (v1 & R1 & _ & _ & E1 & _).
  destruct (cache_adapter_never_raises no_cache_http_empty cache_path)
    as (v2 & R2 & M2 & _).
  destruct (cache_adapter_never_raises empty_cache_http_up cache_path)
    as (v3 & R3 & _ & D3 & _).
  rewrite R1, R2, R3.
  rewrite (proj1 (E1 _ eq_refl eq_refl)), (proj1 (M2 eq_refl)), (D3 _ eq_refl eq_refl).
  repeat split.
Defined.

Lemma persist_connection_failure (w : world) (countries : value) (e : exn) :
  db_connect w = Raise e ->
  persist w countries tt
  = {| trace := [ELoadDotenv creds_path; EConnect; connection_failed_line e];
       frame := tt;
       res := Raise (ConnectionError no_connection_msg) |}.
Proof.
  intros H.
  unfold persist, connect_db, print, connection_failed_line,
    Prog.bind, Prog.try_except, Prog.extern, Prog.ret, Prog.raise.
  rewrite H. reflexivity.
Qed.

Lemma clean_trace_no_session (t : list event) :
  Forall (fun ev => persistence_event ev = false) t ->
  Forall (fun ev => session_event ev = false) t.
Proof.
  intros H. induction H as [|ev t Hev _ IH]; constructor; [|exact IH].
  destruct ev; try discriminate Hev; reflexivity.
Qed.

(** When [psycopg2.connect] raises, [connect_db] prints the failure and
    returns [None], and [main] raises [ConnectionError]: no cursor is
    opened and no statement is executed or committed. *)
Theorem connection_failure_aborts_before_session (w : world)
    (urls : list (string * string)) (v countries : value) (e : exn) :
  res (cached w) = Ok v ->
  res (acquire w urls v) = Ok countries ->
  truthy countries = true ->
  db_connect w = Raise e ->
  res (run_main w urls) = Raise (ConnectionError no_connection_msg) /\
  In (connection_failed_line e) (trace (run_main w urls)) /\
  Forall (fun ev => session_event ev = false) (trace (run_main w urls)).
Proof.
  intros Hc Ha Ht He. rewrite main_outcome, Hc, Ha, Ht.
  rewrite (persist_connection_failure w countries e He). cbn [res trace].
  split; [reflexivity|]. split.
  - apply in_or_app. right. apply in_or_app. right. cbn. auto.
  - apply Forall_app. split; [apply clean_trace_no_session, cached_trace_clean|].
    apply Forall_app. split; [apply clean_trace_no_session, acquire_trace_clean|].
    repeat constructor.
Qed.

Lemma connection_failure_aborts_before_session_witness :
  res (run_main connection_refused sample_urls)
  = Raise (ConnectionError no_connection_msg) /\
  Forall (fun ev => session_event ev = false)
         (trace (run_main connection_refused sample_urls)).
Proof.
  destruct (connection_failure_aborts_before_session connection_refused sample_urls
              (VList [testland]) (VList [testland])
              (ExternalError "psycopg2.OperationalError")
              eq_refl eq_refl eq_refl eq_refl) as (Hres & _ & Htrace).
  split; assumption.
Defined.

Lemma mapM_raises {A B : Type} (f : A -> result B) (l : list A) (x : A) (e : exn) :
  In x l -> f x = Raise e -> exists e', ResultMonad.mapM f l = Raise e'.
Proof.
  induction l as [|y l IH]; intros Hin Hx; [contradiction|].
  cbn [ResultMonad.mapM]. destruct Hin as [->|Hin].
  - rewrite Hx. cbn. eauto.
  - destruct (f y); cbn; [|eauto].
    destruct (IH Hin Hx) as [e' ->]. cbn. eauto.
Qed.

(** [insert_countries] transforms the whole batch before it touches the
    SQL file or the cursor: one record that [transform_country] rejects
    makes it raise with nothing read and nothing executed. *)
Theorem bad_record_aborts_whole_batch (w : world) (cur : cursor) (items : list value)
    (sql_file : string) (x : value) (e : exn) :
  In x items ->
  transform_country x = Raise e ->
  trace (insert_countries w cur (VList items) sql_file tt) = [] /\
  exists e', res (insert_countries w cur (VList items) sql_file tt) = Raise e'.
Proof.
  intros Hin Hx. destruct (mapM_raises transform_country items x e Hin Hx) as [e' He'].
  unfold insert_countries, Prog.bind, Prog.lift. cbn [py_iter]. rewrite He'.
  split; [reflexivity | exists e'; reflexivity].
Qed.

Lemma bad_record_aborts_whole_batch_witness :
  trace (insert_countries all_well Cursor (VList batch_with_bad_record) dml_path tt) = [] /\
  exists e', res (insert_countries all_well Cursor (VList batch_with_bad_record)
                                   dml_path tt) = Raise e'.
Proof.
  apply (bad_record_aborts_whole_batch all_well Cursor batch_with_bad_record dml_path
           (VStr "not a record") AttributeError).
  - right. left. reflexivity.
  - reflexivity.
Defined.

Lemma mapM_transform_total (items : list value) :
  forallb is_well_shaped items = true ->
  exists rows, ResultMonad.mapM transform_country items = Ok rows /\
               length rows = length items /\
               Forall (fun r => length r = 17%nat) rows.
Proof.
  induction items as [|x items IH]; cbn [forallb]; intros H.
  - exists []. repeat split. constructor.
  - apply andb_prop in H. destruct H as [Hx Hitems].
    destruct x; try discriminate Hx. cbn [is_well_shaped] in Hx.
    destruct (transform_country_total d Hx) as (r & Hr & Hlen).
    destruct (IH Hitems) as (rows & Hrows & Hl & Hall).
    exists (r :: rows). cbn [ResultMonad.mapM]. rewrite Hr, Hrows. cbn.
    repeat split; [f_equal; exact Hl | constructor; assumption].
Qed.

Lemma persist_success (w : world) (items : list value) (rows : list row)
    (conn : connection) (cur : cursor) (ddl dml : string) :
  ResultMonad.mapM transform_country items = Ok rows ->
  db_connect w = Ok conn -> db_cursor w = Ok cur ->
  read_text w ddl_path = Ok ddl -> db_execute w ddl = Ok tt ->
  read_text w dml_path = Ok dml -> db_executemany w dml rows = Ok tt ->
  db_commit w = Ok tt ->
  db_close_cursor w = Ok tt -> db_close_connection w = Ok tt ->
  persist w (VList items) tt
  = {| trace := [ELoadDotenv creds_path; EConnect; connected_line; EOpenCursor;
                 EReadText ddl_path; EExecute ddl; table_created_line;
                 EReadText dml_path; EExecuteMany dml rows;
                 inserted_line (length rows);
                 ECommit; ECloseCursor; ECloseConnection;
                 EPrint [PStr "All done!"]];
       frame := tt;
       res := Ok tt |}.
Proof.
  intros Hrows Hconn Hcur Hddl Hexec Hdml Hmany Hcommit Hcc Hcn.
  unfold persist, connect_db, create_table, insert_countries, print,
    Prog.bind, Prog.try_except, Prog.extern, Prog.lift, Prog.ret, Prog.raise.
  cbn [py_iter].
  rewrite Hconn, Hcur, Hddl, Hexec, Hrows, Hdml, Hmany, Hcommit, Hcc, Hcn.
  reflexivity.
Qed.

(** When the acquired records are a non-empty list of well-shaped records
    and every call to the database and to the SQL files succeeds, [main]
    returns normally, having connected, created the table, inserted one row
    of 17 fields per record in one [executemany], committed, and closed the
    cursor and then the connection, in this order. *)
Theorem main_loads_every_record (w : world) (urls : list (string * string))
    (v : value) (items : list value) (conn : connection) (cur : cursor)
    (ddl dml : string) :
  res (cached w) = Ok v ->
  res (acquire w urls v) = Ok (VList items) ->
  items <> [] ->
  forallb is_well_shaped items = true ->
  db_connect w = Ok conn -> db_cursor w = Ok cur ->
  read_text w ddl_path = Ok ddl -> db_execute w ddl = Ok tt ->
  read_text w dml_path = Ok dml ->
  (forall rows, db_executemany w dml rows = Ok tt) ->
  db_commit w = Ok tt ->
  db_close_cursor w = Ok tt -> db_close_connection w = Ok tt ->
  exists rows,
    ResultMonad.mapM transform_country items = Ok rows /\
    length rows = length items /\
    Forall (fun r => length r = 17%nat) rows /\
    run_main w urls
    = {| trace := trace (cached w) ++ trace (acquire w urls v) ++
                  [ELoadDotenv creds_path; EConnect; connected_line; EOpenCursor;
                   EReadText ddl_path; EExecute ddl; table_created_line;
                   EReadText dml_path; EExecuteMany dml rows;
                   inserted_line (length items);
                   ECommit; ECloseCursor; ECloseConnection;
                   EPrint [PStr "All done!"]];
         frame := tt;
         res := Ok tt |}.
Proof.
  intros Hc Ha Hne Hshape Hconn Hcur Hddl Hexec Hdml Hmany Hcommit Hcc Hcn.
  destruct (mapM_transform_total items Hshape) as (rows & Hrows & Hlen & Hall).
  exists rows. split; [exact Hrows|]. split; [exact Hlen|]. split; [exact Hall|].
  rewrite main_outcome, Hc, Ha.
  assert (Ht : truthy (VList items) = true) by (destruct items; [contradiction | reflexivity]).
  rewrite Ht.
  rewrite (persist_success w items rows conn cur ddl dml Hrows Hconn Hcur Hddl Hexec
             Hdml (Hmany rows) Hcommit Hcc Hcn).
  cbn [res trace]. rewrite Hlen. reflexivity.
Qed.

Lemma main_loads_every_record_witness :
  exists rows,
    length rows = 2%nat /\
    res (run_main all_well sample_urls) = Ok tt /\
    In (EExecuteMany "-- statement read from ./dml_commands/insert_countries.sql" rows)
       (trace (run_main all_well sample_urls)).
Proof.
  destruct (main_loads_every_record all_well sample_urls
              (VList [testland; VDict full_record]) [testland; VDict full_record]
              Connection Cursor _ _
              eq_refl eq_refl ltac:(discriminate) eq_refl eq_refl eq_refl eq_refl
              eq_refl eq_refl (fun _ => eq_refl) eq_refl eq_refl eq_refl)
    as (rows & _ & Hlen & _ & Hrun).
  exists rows. split; [exact Hlen|]. rewrite Hrun. cbn [res trace]. split; [reflexivity|].
  apply in_or_app. right. apply in_or_app. right. cbn. tauto.
Defined.

Lemma persist_commit_follows_insert (w : world) (countries : value) :
  In ECommit (trace (persist w countries tt)) ->
  exists ddl dml rows,
    In (EExecute ddl) (trace (persist w countries tt)) /\
    db_execute w ddl = Ok tt /\
    In (EExecuteMany dml rows) (trace (persist w countries tt)) /\
    db_executemany w dml rows = Ok tt.
Proof.
  unfold persist, connect_db, create_table, insert_countries, print,
    Prog.bind, Prog.try_except, Prog.extern, Prog.lift, Prog.ret, Prog.raise.
  destruct (db_connect w) as [conn|e];
    [|cbn; intros H; exfalso; intuition discriminate].
  destruct (db_cursor w) as [cur|e];
    [|cbn; intros H; exfalso; intuition discriminate].
  destruct (read_text w ddl_path) as [ddl|e];
    [|cbn; intros H; exfalso; intuition discriminate].
  destruct (db_execute w ddl) as [[]|e] eqn:Hexec;
    [|cbn; intros H; exfalso; intuition discriminate].
  destruct (py_iter countries) as [items|e];
    [|cbn; intros H; exfalso; intuition discriminate].
  destruct (ResultMonad.mapM transform_country items) as [records|e];
    [|cbn; intros H; exfalso; intuition discriminate].
  destruct (read_text w dml_path) as [dml|e];
    [|cbn; intros H; exfalso; intuition discriminate].
  destruct (db_executemany w dml records) as [[]|e] eqn:Hmany;
    [|cbn; intros H; exfalso; intuition discriminate].
  intros _. exists ddl, dml, records.
  destruct (db_commit w) as [[]|e];
    [destruct (db_close_cursor w) as [[]|e];
       [destruct (db_close_connection w) as [[]|e]|]|];
    cbn; intuition.
Qed.

Lemma clean_trace_no_commit (t : list event) :
  Forall (fun ev => persistence_event ev = false) t -> ~ In ECommit t.
Proof.
  intros H Hin. rewrite Forall_forall in H. specialize (H ECommit Hin). discriminate H.
Qed.

(** [main] calls [conn.commit()] only after the create-table statement and
    the bulk insert have both been executed and have returned: a run in
    which either of them fails, or is not reached, commits nothing. *)
Theorem commit_follows_insert (w : world) (urls : list (string * string)) :
  In ECommit (trace (run_main w urls)) ->
  exists ddl dml rows,
    In (EExecute ddl) (trace (run_main w urls)) /\
    db_execute w ddl = Ok tt /\
    In (EExecuteMany dml rows) (trace (run_main w urls)) /\
    db_executemany w dml rows = Ok tt.
Proof.
  rewrite main_outcome. destruct (cached_yields w) as [v Hv]. rewrite Hv.
  pose proof (clean_trace_no_commit _ (cached_trace_clean w)) as Hc.
  pose proof (clean_trace_no_commit _ (acquire_trace_clean w urls v)) as Ha.
  destruct (res (acquire w urls v)) as [countries|e];
    [destruct (truthy countries)|]; cbn [trace]; intros Hin;
    repeat (apply in_app_or in Hin; destruct Hin as [Hin|Hin]);
    try contradiction.
  destruct (persist_commit_follows_insert w countries Hin)
    as (ddl & dml & rows & H1 & H2 & H3 & H4).
  exists ddl, dml, rows.
  repeat split; try assumption;
    apply in_or_app; right; apply in_or_app; right; assumption.
Qed.

Lemma commit_follows_insert_witness :
  exists ddl dml rows,
    In (EExecute ddl) (trace (run_main all_well sample_urls)) /\
    db_execute all_well ddl = Ok tt /\
    In (EExecuteMany dml rows) (trace (run_main all_well sample_urls)) /\
    db_executemany all_well dml rows = Ok tt.
Proof.
  apply (commit_follows_insert all_well sample_urls).
  cbn. tauto.
Defined.

Lemma request_trace_no_write (urls : list (string * string)) (key p : string)
    (data : value) :
  ~ In (EWriteJson p data) (request_trace urls key).
Proof.
  unfold request_trace. destruct (py_subscript urls key); cbn;
    intros H; intuition discriminate.
Qed.

(** [fetch_country_data] writes the cache file exactly when both responses
    were fetched and merged, and it returns only what it has written: the
    list it returns, empty or not, is in [countries_raw.json] before the
    caller sees it, and a fetch that fails writes nothing. *)
Theorem fetch_returns_what_it_cached (w : world) (urls : list (string * string)) :
  (forall v, res (run_fetch w urls) = Ok v ->
     In (EWriteJson cache_path v) (trace (run_fetch w urls)) /\
     write_json w cache_path v = Ok tt) /\
  (forall p data, In (EWriteJson p data) (trace (run_fetch w urls)) ->
     p = cache_path /\
     exists r1 r2 merged,
       response w urls "url1" = Ok r1 /\ response w urls "url2" = Ok r2 /\
       merge_responses r1 r2 = Ok merged /\ data = VList merged).
Proof.
  rewrite fetch_outcome.
  destruct (response w urls "url1") as [r1|e1].
  2:{ cbn [res trace]. split; [discriminate|]. intros p data Hin.
      apply in_app_or in Hin. destruct Hin as [Hin|Hin].
      - destruct (request_trace_no_write _ _ _ _ Hin).
      - cbn in Hin. exfalso. intuition discriminate. }
  destruct (response w urls "url2") as [r2|e2].
  2:{ cbn [res trace]. split; [discriminate|]. intros p data Hin.
      apply in_app_or in Hin. destruct Hin as [Hin|Hin];
        [destruct (request_trace_no_write _ _ _ _ Hin)|].
      apply in_app_or in Hin. destruct Hin as [Hin|Hin];
        [destruct (request_trace_no_write _ _ _ _ Hin)|].
      cbn in Hin. exfalso. intuition discriminate. }
  destruct (merge_responses r1 r2) as [merged|e] eqn:Hm.
  2:{ cbn [res trace]. split; [discriminate|]. intros p data Hin.
      apply in_app_or in Hin. destruct Hin as [Hin|Hin];
        destruct (request_trace_no_write _ _ _ _ Hin). }
  destruct (write_json w cache_path (VList merged)) as [[]|e] eqn:Hw; cbn [res trace].
  - split.
    + intros v Hv. inversion Hv; subst v. split; [|exact Hw].
      apply in_or_app. right. apply in_or_app. right. left. reflexivity.
    + intros p data Hin.
      apply in_app_or in Hin. destruct Hin as [Hin|Hin];
        [destruct (request_trace_no_write _ _ _ _ Hin)|].
      apply in_app_or in Hin. destruct Hin as [Hin|Hin];
        [destruct (request_trace_no_write _ _ _ _ Hin)|].
      destruct Hin as [Hin|[Hin|[]]]; [|discriminate Hin].
      inversion Hin; subst. split; [reflexivity|]. exists r1, r2, merged. repeat split; assumption.
  - split; [discriminate|]. intros p data Hin.
    apply in_app_or in Hin. destruct Hin as [Hin|Hin];
      [destruct (request_trace_no_write _ _ _ _ Hin)|].
    apply in_app_or in Hin. destruct Hin as [Hin|Hin];
      [destruct (request_trace_no_write _ _ _ _ Hin)|].
    destruct Hin as [Hin|[]].
    inversion Hin; subst. split; [reflexivity|]. exists r1, r2, merged.
    repeat split; assumption.
Qed.

Lemma fetch_returns_what_it_cached_witness :
  In (EWriteJson cache_path (VList [])) (trace (run_fetch no_cache_http_empty sample_urls)) /\
  forall p data, ~ In (EWriteJson p data) (trace (run_fetch no_cache_http_down sample_urls)).
Proof.
  split.
  - exact (proj1 (proj1 (fetch_returns_what_it_cached no_cache_http_empty sample_urls)
                    (VList []) eq_refl)).
  - intros p data Hin.
    destruct (proj2 (fetch_returns_what_it_cached no_cache_http_down sample_urls)
                p data Hin) as (_ & r1 & _ & _ & Hr1 & _).
    discriminate Hr1.
Defined.

Lemma persist_makes_no_request (w : world) (countries : value) :
  Forall (fun ev => fetch_event ev = false) (trace (persist w countries tt)).
Proof.
  unfold persist, connect_db, create_table, insert_countries, print,
    Prog.bind, Prog.try_except, Prog.extern, Prog.lift, Prog.ret, Prog.raise.
  destruct (db_connect w) as [conn|e]; [|repeat constructor].
  destruct (db_cursor w) as [cur|e]; [|repeat constructor].
  destruct (read_text w ddl_path) as [ddl|e]; [|repeat constructor].
  destruct (db_execute w ddl) as [[]|e]; [|repeat constructor].
  destruct (py_iter countries) as [items|e]; [|repeat constructor].
  destruct (ResultMonad.mapM transform_country items) as [records|e];
    [|repeat constructor].
  destruct (read_text w dml_path) as [dml|e]; [|repeat constructor].
  destruct (db_executemany w dml records) as [[]|e]; [|repeat constructor].
  destruct (db_commit w) as [[]|e]; [|repeat constructor].
  destruct (db_close_cursor w) as [[]|e]; [|repeat constructor].
  destruct (db_close_connection w) as [[]|e]; repeat constructor.
Qed.

Lemma cached_makes_no_request (w : world) :
  Forall (fun ev => fetch_event ev = false) (trace (cached w)).
Proof.
  unfold cached. rewrite load_outcome.
  destruct (path_exists w cache_path); [destruct (read_json w cache_path)|];
    cbn [trace]; repeat constructor.
Qed.

(** Whenever the cache file yields anything but [None], even an empty list,
    [main] works offline: it makes no HTTP request and does not rewrite the
    cache file. *)
Theorem cache_hit_makes_no_request (w : world) (urls : list (string * string))
    (v : value) :
  res (cached w) = Ok v ->
  v <> VNone ->
  Forall (fun ev => fetch_event ev = false) (trace (run_main w urls)).
Proof.
  intros Hc Hv. rewrite main_outcome, Hc.
  assert (Ha : acquire w urls v = {| trace := []; frame := tt; res := Ok v |}).
  { unfold acquire. destruct (is_none v) eqn:E; [|reflexivity].
    apply is_none_true in E. contradiction. }
  rewrite Ha. cbn [res trace app].
  destruct (truthy v); cbn [trace].
  - apply Forall_app. split; [apply cached_makes_no_request|].
    apply persist_makes_no_request.
  - rewrite app_nil_r. apply cached_makes_no_request.
Qed.

Lemma cache_hit_makes_no_request_witness :
  Forall (fun ev => fetch_event ev = false) (trace (run_main all_well sample_urls)) /\
  Forall (fun ev => fetch_event ev = false)
         (trace (run_main empty_cache_http_up sample_urls)).
Proof.
  split.
  - apply (cache_hit_makes_no_request all_well sample_urls
             (VList [testland; VDict full_record]) eq_refl). discriminate.
  - apply (cache_hit_makes_no_request empty_cache_http_up sample_urls
             (VList []) eq_refl). discriminate.
Defined.

(** *** The merge of two records *)

Lemma dict_set_keys (k : string) (v : value) (d : dict) :
  dict_keys (dict_set k v d)
  = if existsb (String.eqb k) (dict_keys d) then dict_keys d else (dict_keys d ++ [k])%list.
Proof.
  induction d as [|[k0 v0] d IH]; [reflexivity|].
  cbn [dict_set dict_keys map fst existsb].
  destruct (String.eqb k k0); cbn [orb map fst]; [reflexivity|].
  fold (dict_keys (dict_set k v d)). fold (dict_keys d). rewrite IH.
  destruct (existsb (String.eqb k) (dict_keys d)); reflexivity.
Qed.

Lemma existsb_eqb_in (k : string) (l : list string) :
  existsb (String.eqb k) l = true <-> In k l.
Proof.
  rewrite existsb_exists. split.
  - intros (x & Hx & E). apply String.eqb_eq in E. subst x. exact Hx.
  - intros H. exists k. split; [exact H | apply String.eqb_refl].
Qed.

Lemma dict_set_wf (k : string) (v : value) (d : dict) :
  dict_wf d -> dict_wf (dict_set k v d).
Proof.
  unfold dict_wf. intros H. rewrite dict_set_keys.
  destruct (existsb (String.eqb k) (dict_keys d)) eqn:E; [exact H|].
  apply NoDup_app; [exact H | repeat constructor; intros [] |].
  intros x Hx [<-|[]].
  apply existsb_eqb_in in Hx. congruence.
Qed.

Lemma dict_set_keys_extend (k : string) (v : value) (d : dict) :
  exists extra, dict_keys (dict_set k v d) = (dict_keys d ++ extra)%list /\
                forall x, In x extra -> x = k.
Proof.
  rewrite dict_set_keys. destruct (existsb (String.eqb k) (dict_keys d)).
  - exists []. rewrite app_nil_r. split; [reflexivity | intros x []].
  - exists [k]. split; [reflexivity|]. intros x [<-|[]]. reflexivity.
Qed.

(** [{**a, **b}] keeps the invariant and the order of a dictionary: the
    merged record has no duplicate key, the keys of [a] keep their places at
    the front, and only keys of [b] are added behind them. *)
Theorem dict_merge_keeps_order (a b : dict) :
  dict_wf a ->
  dict_wf (dict_merge a b) /\
  exists extra,
    dict_keys (dict_merge a b) = (dict_keys a ++ extra)%list /\
    (forall k, In k extra -> In k (dict_keys b)) /\
    (forall k, In k (dict_keys b) -> In k (dict_keys (dict_merge a b))).
Proof.
  unfold dict_merge. revert a.
  induction b as [|[k v] b IH]; intros a Hwf; cbn [fold_left fst snd].
  - split; [exact Hwf|]. exists []. rewrite app_nil_r.
    split; [reflexivity|]. split; intros k [].
  - destruct (IH (dict_set k v a) (dict_set_wf k v a Hwf)) as (Hwf' & extra & Hk & Hin & Hb).
    split; [exact Hwf'|].
    destruct (dict_set_keys_extend k v a) as (e0 & He0 & Hk0).
    exists (e0 ++ extra)%list. rewrite Hk, He0, <- app_assoc.
    split; [reflexivity|]. split.
    + intros x Hx. apply in_app_or in Hx. destruct Hx as [Hx|Hx].
      * left. symmetry. apply Hk0, Hx.
      * right. apply Hin, Hx.
    + intros x [<-|Hx].
      * rewrite app_assoc, <- He0. apply in_or_app. left.
        rewrite dict_set_keys.
        destruct (existsb (String.eqb k) (dict_keys a)) eqn:E.
        -- apply existsb_eqb_in, E.
        -- apply in_or_app. right. left. reflexivity.
      * rewrite app_assoc, <- He0, <- Hk. apply Hb, Hx.
Qed.

Lemma dict_merge_keeps_order_witness :
  dict_wf (dict_merge [("name", VStr "A1"); ("currencies", VDict [])]
                      [("capital", VList []); ("name", VStr "A2")]) /\
  dict_merge [("name", VStr "A1"); ("currencies", VDict [])]
             [("capital", VList []); ("name", VStr "A2")]
  = [("name", VStr "A2"); ("currencies", VDict []); ("capital", VList [])].
Proof.
  split; [|reflexivity].
  apply (dict_merge_keeps_order [("name", VStr "A1"); ("currencies", VDict [])]
                                [("capital", VList []); ("name", VStr "A2")]).
  unfold dict_wf. cbn. repeat constructor; cbn; intuition discriminate.
Defined.

(** *** Malformed responses and failed requests *)

Lemma mapM_unpack_type_error (ps : list (value * value)) (e : exn) :
  ResultMonad.mapM (fun p => py_dict_unpack2 (fst p) (snd p)) ps = Raise e ->
  e = TypeError.
Proof.
  induction ps as [|p ps IH]; cbn [ResultMonad.mapM]; [discriminate|].
  destruct (py_dict_unpack2 (fst p) (snd p)) as [v|e'] eqn:E; cbn [ResultMonad.bind].
  - destruct (ResultMonad.mapM _ ps) as [vs|e'']; cbn [ResultMonad.bind];
      [discriminate|].
    intros H. inversion H; subst e''. apply IH. reflexivity.
  - intros H. inversion H; subst e'.
    destruct (fst p), (snd p); cbn in E; inversion E; reflexivity.
Qed.

Lemma merge_responses_bad_pair (r1 r2 : value) (it1 it2 : list value) (i : nat)
    (x y : value) :
  py_iter r1 = Ok it1 -> py_iter r2 = Ok it2 ->
  nth_error it1 i = Some x -> nth_error it2 i = Some y ->
  is_record x = false \/ is_record y = false ->
  merge_responses r1 r2 = Raise TypeError.
Proof.
  intros H1 H2 Hx Hy Hbad. unfold merge_responses. rewrite H1, H2.
  cbn [ResultMonad.bind].
  assert (Hp : py_dict_unpack2 x y = Raise TypeError).
  { destruct Hbad as [Hb|Hb]; destruct x, y; try discriminate Hb; reflexivity. }
  destruct (mapM_raises (fun p => py_dict_unpack2 (fst p) (snd p)) (zip it1 it2)
              (x, y) TypeError
              (nth_error_In _ _ (zip_nth_error _ _ _ _ _ Hx Hy)) Hp) as [e He].
  rewrite He. f_equal. apply (mapM_unpack_type_error _ _ He).
Qed.

Lemma merge_responses_not_iterable (r1 r2 : value) :
  not_iterable r1 = true \/ (not_iterable r2 = true /\ exists it1, py_iter r1 = Ok it1) ->
  merge_responses r1 r2 = Raise TypeError.
Proof.
  unfold merge_responses. intros [H|[H [it1 H1]]].
  - destruct r1; try discriminate H; reflexivity.
  - rewrite H1. destruct r2; try discriminate H; reflexivity.
Qed.

(** Both requests answered, but not with two lists of records: when a
    response is [null], a number or a boolean, or when an item that the two
    responses pair up is not a mapping (an element of a list, or a key of an
    error object such as [{"status": 404, ...}]), [fetch_country_data]
    raises [TypeError] out of the merge, prints nothing and leaves the cache
    file untouched. *)
Theorem malformed_responses_raise_type_error (w : world)
    (urls : list (string * string)) (r1 r2 : value) :
  response w urls "url1" = Ok r1 ->
  response w urls "url2" = Ok r2 ->
  (not_iterable r1 = true \/
   (not_iterable r2 = true /\ exists it1, py_iter r1 = Ok it1) \/
   exists it1 it2 i x y,
     py_iter r1 = Ok it1 /\ py_iter r2 = Ok it2 /\
     nth_error it1 i = Some x /\ nth_error it2 i = Some y /\
     (is_record x = false \/ is_record y = false)) ->
  run_fetch w urls
  = {| trace := request_trace urls "url1" ++ request_trace urls "url2";
       frame := tt;
       res := Raise TypeError |}.
Proof.
  intros H1 H2 Hbad. rewrite fetch_outcome, H1, H2.
  assert (Hm : merge_responses r1 r2 = Raise TypeError).
  { destruct Hbad as [H|[H|(it1 & it2 & i & x & y & Hi1 & Hi2 & Hx & Hy & Hb)]].
    - apply merge_responses_not_iterable. left. exact H.
    - apply merge_responses_not_iterable. right. exact H.
    - exact (merge_responses_bad_pair r1 r2 it1 it2 i x y Hi1 Hi2 Hx Hy Hb). }
  rewrite Hm. reflexivity.
Qed.

Lemma malformed_responses_raise_type_error_witness :
  res (run_fetch no_cache_error_payload sample_urls) = Raise TypeError /\
  forall ev, In ev (trace (run_fetch no_cache_error_payload sample_urls)) ->
             exists url, ev = EHttpGetJson url.
Proof.
  rewrite (malformed_responses_raise_type_error no_cache_error_payload sample_urls
             (VList [testland])
             (VDict [("status", VInt 404); ("message", VStr "Not Found")])
             eq_refl eq_refl).
  - split; [reflexivity|]. cbn. intros ev [<-|[<-|[]]]; eauto.
  - right. right. exists [testland], [VStr "status"; VStr "message"], 0%nat,
      testland, (VStr "status").
    repeat split. right. reflexivity.
Defined.

Lemma request_failure_unbound (w : world) (urls : list (string * string)) (e : exn) :
  response w urls "url1" = Raise e \/
  ((exists r1, response w urls "url1" = Ok r1) /\ response w urls "url2" = Raise e) ->
  exists var, res (run_fetch w urls) = Raise (UnboundLocalError var).
Proof.
  rewrite fetch_outcome. intros [H1|[[r1 H1] H2]].
  - rewrite H1. cbn [res]. eauto.
  - rewrite H1, H2. cbn [res]. eauto.
Qed.

(** With no usable cache file, a request that fails ends [main] with the
    [UnboundLocalError] of the fetch, not with its "no data" [ValueError],
    and before any call of [connect_db] or of the database. *)
Theorem request_failure_ends_main_unbound (w : world) (urls : list (string * string))
    (e : exn) :
  res (cached w) = Ok VNone ->
  response w urls "url1" = Raise e \/
  ((exists r1, response w urls "url1" = Ok r1) /\ response w urls "url2" = Raise e) ->
  (exists var, res (run_main w urls) = Raise (UnboundLocalError var)) /\
  res (run_main w urls) <> Raise (ValueError no_data_msg) /\
  Forall (fun ev => persistence_event ev = false) (trace (run_main w urls)).
Proof.
  intros Hc Hreq. destruct (request_failure_unbound w urls e Hreq) as [var Hf].
  destruct (failed_fetch_aborts_before_database w urls _ Hc Hf) as [Hres Htrace].
  split; [exists var; exact Hres|]. split; [|exact Htrace].
  rewrite Hres. discriminate.
Qed.

Lemma request_failure_ends_main_unbound_witness :
  res (run_main no_cache_http_down sample_urls) = Raise (UnboundLocalError "response1") /\
  Forall (fun ev => persistence_event ev = false)
         (trace (run_main no_cache_http_down sample_urls)).
Proof.
  destruct (request_failure_ends_main_unbound no_cache_http_down sample_urls
              (ExternalError "requests.exceptions.ConnectionError")
              eq_refl (or_introl eq_refl)) as (_ & _ & Htrace).
  split; [reflexivity | exact Htrace].
Defined.
